(** * Power HAL and display-mode shim of the santos10 device tree

    A shallow embedding of [power/power.c] (the "Fugu Power HAL") and of
    [DisplayModeControl.java], with the properties of their external
    contract.

    Conventions.
    - C integers are [Z]; where the C type has a width the wrap-around is
      written out ([wrap_long], [to_uint32], [to_uint64]).
    - The kernel nodes the HAL touches are a finite map from path to node;
      every [sysfs_write] call is also appended to a call log, so that
      "no write is issued" is a statement about that log.
    - A C array access outside the table and a dereference of a null
      [data] pointer are explicit [Fault]s of the model.
    - Java evaluation is in an exception monad ([jresult]); [null] is
      [None]. *)

From Stdlib Require Import ZArith Lia List String Ascii Bool.
From stdpp Require Import base option list gmap strings pretty.

Local Open Scope string_scope.
Local Open Scope Z_scope.

(* ===================================================================== *)
(** * Part I: power/power.c                                               *)
(* ===================================================================== *)

(** ** Paths *)

Definition BOOST_PULSE_SYSFS : string :=
  "/sys/devices/system/cpu/cpufreq/interactive/boostpulse".
Definition BOOST_FREQ_SYSFS : string :=
  "/sys/devices/system/cpu/cpufreq/interactive/hispeed_freq".
Definition BOOST_DURATION_SYSFS : string :=
  "/sys/devices/system/cpu/cpufreq/interactive/boostpulse_duration".
Definition CPUFREQ_PATH : string := "/sys/devices/system/cpu/cpu0/cpufreq/".
Definition INTERACTIVE_PATH : string :=
  "/sys/devices/system/cpu/cpufreq/interactive/".

(** ** Data *)

(** [struct timespec]: both fields have type [long]. *)
Record timespec : Type := mk_timespec { tv_sec : Z; tv_nsec : Z }.

(** [struct intel_power_module], without the constant [container]:
    [pulse_duration] is a [uint32_t]. *)
Record intel_power_module : Type := mk_module {
  pulse_duration : Z;
  last_boost_time : timespec
}.

(** Modelled from the spec: the [power_profile] struct of [power.h], which
    is not among the sources; section 3 of the specification lists its
    eight fields, and [set_power_profile] reads exactly these. *)
Record power_profile : Type := mk_profile {
  boost : Z;
  boostpulse_duration : Z;
  go_hispeed_load : Z;
  hispeed_freq : Z;
  io_is_busy : Z;
  target_loads : string;
  scaling_min_freq : Z;
  scaling_max_freq : Z
}.

(** What [stat]/[open] can find at a path: a directory, or a file with
    its text. *)
Inductive node : Type :=
| Dir
| Attr (content : string).

(** The state the HAL works on: the module instance, the static
    [current_power_profile], the kernel nodes, and the log of the
    [sysfs_write] calls issued so far (oldest first). *)
Record hal : Type := mk_hal {
  module_ : intel_power_module;
  current_power_profile : Z;
  sysfs : gmap string node;
  wlog : list (string * string)
}.

Inductive power_hint_t : Type :=
| POWER_HINT_VSYNC
| POWER_HINT_INTERACTION
| POWER_HINT_CPU_BOOST
| POWER_HINT_LAUNCH_BOOST
| POWER_HINT_SET_PROFILE
| POWER_HINT_OTHER (code : Z).

Inductive feature_t : Type :=
| POWER_FEATURE_SUPPORTED_PROFILES
| POWER_FEATURE_OTHER (code : Z).

(** ** Faults of the C program *)

Inductive fault : Type :=
| OutOfBounds (index : Z)
| NullDeref.

Inductive outcome (A : Type) : Type :=
| Done (a : A)
| Fault (f : fault).
Arguments Done {A} a.
Arguments Fault {A} f.

Definition obind {A B : Type} (m : outcome A) (k : A -> outcome B) : outcome B :=
  match m with
  | Done a => k a
  | Fault f => Fault f
  end.

Notation "x <-! m ;; k" := (obind m (fun x => k))
  (at level 100, m at next level, right associativity).

(** ** Fixed-width integers *)

Definition to_uint32 (z : Z) : Z := z mod 2 ^ 32.
Definition to_uint64 (z : Z) : Z := z mod 2 ^ 64.
Definition wrap_signed (bits z : Z) : Z :=
  (z + 2 ^ (bits - 1)) mod 2 ^ bits - 2 ^ (bits - 1).
Definition to_int32 (z : Z) : Z := wrap_signed 32 z.

(** ** File primitives *)

Definition strlen (s : string) : Z := Z.of_nat (String.length s).

Definition log_write (path s : string) (st : hal) : hal :=
  mk_hal (module_ st) (current_power_profile st) (sysfs st)
         (wlog st ++ [(path, s)]).

(** [write(fd, s, strlen(s))] on a file opened without [O_TRUNC]: the
    first bytes are replaced, a longer old text keeps its tail. *)
Definition overwrite (s old : string) : string :=
  s +:+ String.substring (String.length s)
                         (String.length old - String.length s) old.

(** [sysfs_write]: [open(path, O_WRONLY)] fails on a missing node and on a
    directory; otherwise the string is written over the start of the
    text.  Returns the state and the C return value.  (A [write] that the
    node refuses is not modelled; the callers ignore the result.) *)
Definition sysfs_write (path s : string) (st : hal) : hal * Z :=
  match sysfs st !! path with
  | Some (Attr c) =>
      (mk_hal (module_ st) (current_power_profile st)
              (<[path := Attr (overwrite s c)]> (sysfs st))
              (wlog st ++ [(path, s)]),
       strlen s)
  | _ => (log_write path s st, -1)
  end.

Definition sysfs_write_int (path : string) (value : Z) (st : hal) : hal * Z :=
  sysfs_write path (pretty value) st.

Definition last_char (s : string) : option ascii :=
  last (String.list_ascii_of_string s).

Definition drop_last (s : string) : string :=
  String.substring 0 (String.length s - 1) s.

(** The C string a buffer holds: the bytes before the first NUL. *)
Fixpoint c_string (s : string) : string :=
  match s with
  | EmptyString => EmptyString
  | String c r => if Ascii.eqb c "000" then EmptyString else String c (c_string r)
  end.

(** [sysfs_read]: at most [num_bytes - 1] bytes are read; the terminator
    is put over a trailing newline, or else behind the last byte.  [None]
    is the return value [-1]; otherwise the byte count and the buffer as
    the C string the caller sees. *)
Definition sysfs_read (path : string) (num_bytes : Z) (st : hal)
  : option (Z * string) :=
  match sysfs st !! path with
  | Some (Attr c) =>
      let s := String.substring 0 (Z.to_nat (num_bytes - 1)) c in
      let count := strlen s in
      if (1 <=? count) && bool_decide (last_char s = Some "010"%char)
      then Some (count, c_string (drop_last s))
      else Some (count, c_string s)
  | _ => None
  end.

(** [atoi]: leading white space, an optional sign, then decimal digits up
    to the first other character; the value is taken in [int].  (For a
    number outside [int] the C library saturates or truncates depending
    on the width of [long]; here such a number wraps, and no property
    below reaches that case.) *)
Definition is_space (c : ascii) : bool :=
  let n := Ascii.nat_of_ascii c in
  (Nat.eqb n 32) || ((Nat.leb 9 n) && (Nat.leb n 13)).

Definition digit_of (c : ascii) : option Z :=
  let n := Z.of_nat (Ascii.nat_of_ascii c) in
  if (48 <=? n) && (n <=? 57) then Some (n - 48) else None.

Fixpoint atoi_digits (acc : Z) (s : string) : Z :=
  match s with
  | String c r =>
      match digit_of c with
      | Some d => atoi_digits (10 * acc + d) r
      | None => acc
      end
  | EmptyString => acc
  end.

Fixpoint skip_space (s : string) : string :=
  match s with
  | String c r => if is_space c then skip_space r else s
  | EmptyString => s
  end.

Definition atoi (s : string) : Z :=
  match skip_space s with
  | String "-"%char r => to_int32 (- atoi_digits 0 r)
  | String "+"%char r => to_int32 (atoi_digits 0 r)
  | r => to_int32 (atoi_digits 0 r)
  end.

(** ** The module *)

Section PowerHAL.

(** Width of [long] (and of [time_t]) on the target. *)
Variable long_bits : Z.

(** Modelled from the spec: [PROFILE_MAX] and the [profiles] table of
    [power.h], which is not among the sources ("fixed table indexed by
    profile id 0..PROFILE_MAX-1, table contents not shown"). *)
Variable PROFILE_MAX : Z.
Variable profiles : list power_profile.

Definition wrap_long (z : Z) : Z := wrap_signed long_bits z.

(** [profiles[i]] *)
Definition profiles_at (i : Z) : outcome power_profile :=
  if 0 <=? i then
    match profiles !! Z.to_nat i with
    | Some p => Done p
    | None => Fault (OutOfBounds i)
    end
  else Fault (OutOfBounds i).

Definition set_module (m : intel_power_module) (st : hal) : hal :=
  mk_hal m (current_power_profile st) (sysfs st) (wlog st).

Definition set_current (p : Z) (st : hal) : hal :=
  mk_hal (module_ st) p (sysfs st) (wlog st).

Definition fugu_power_init (now : timespec) (st : hal) : hal :=
  let boostpulse_duration :=
    match sysfs_read BOOST_DURATION_SYSFS 32 st with
    | Some (_, s) => s
    | None => pretty 20000
    end in
  set_module (mk_module (to_uint32 (atoi boostpulse_duration)) now) st.

Definition fugu_power_set_interactive (on : Z) (st : hal) : hal := st.

Definition timespec_sub (a b : timespec) : timespec :=
  let sec := wrap_long (tv_sec a - tv_sec b) in
  if tv_sec b <=? tv_sec a then
    mk_timespec sec (wrap_long (tv_nsec a - tv_nsec b))
  else
    mk_timespec (wrap_long (sec - 1))
                (wrap_long (wrap_long (1000000000 - tv_nsec b) + tv_nsec a)).

Definition timespec_to_us (t : timespec) : Z :=
  to_uint64 (wrap_long (wrap_long (tv_sec t * 1000000)
                        + Z.quot (tv_nsec t) 1000)).

Definition check_governor (st : hal) : bool :=
  match sysfs st !! INTERACTIVE_PATH with
  | Some Dir => true
  | _ => false
  end.

Definition is_profile_valid (profile : Z) : bool :=
  (0 <=? profile) && (profile <? PROFILE_MAX).

Definition write_profile (p : power_profile) (st : hal) : hal :=
  let st := fst (sysfs_write_int (INTERACTIVE_PATH +:+ "boost") (boost p) st) in
  let st := fst (sysfs_write_int (INTERACTIVE_PATH +:+ "boostpulse_duration")
                                 (boostpulse_duration p) st) in
  let st := fst (sysfs_write_int (INTERACTIVE_PATH +:+ "go_hispeed_load")
                                 (go_hispeed_load p) st) in
  let st := fst (sysfs_write_int (INTERACTIVE_PATH +:+ "hispeed_freq")
                                 (hispeed_freq p) st) in
  let st := fst (sysfs_write_int (INTERACTIVE_PATH +:+ "io_is_busy")
                                 (io_is_busy p) st) in
  let st := fst (sysfs_write (INTERACTIVE_PATH +:+ "target_loads")
                             (target_loads p) st) in
  let st := fst (sysfs_write_int (CPUFREQ_PATH +:+ "scaling_min_freq")
                                 (scaling_min_freq p) st) in
  fst (sysfs_write_int (CPUFREQ_PATH +:+ "scaling_max_freq")
                       (scaling_max_freq p) st).

Definition set_power_profile (profile : Z) (st : hal) : outcome hal :=
  if negb (is_profile_valid profile) then Done st
  else if profile =? current_power_profile st then Done st
  else if negb (check_governor st) then Done st
  else
    p <-! profiles_at profile ;;
    Done (set_current profile (write_profile p st)).

(** The time elapsed since the last boost, as the hint handler computes
    it. *)
Definition boost_diff (now : timespec) (st : hal) : Z :=
  timespec_to_us (timespec_sub now (last_boost_time (module_ st))).

Definition pulse (now : timespec) (st : hal) : hal :=
  let st := fst (sysfs_write BOOST_PULSE_SYSFS "1" st) in
  set_module (mk_module (pulse_duration (module_ st)) now) st.

(** [now] is what [clock_gettime(CLOCK_MONOTONIC)] returns during the
    call; [data] is [None] for a null pointer and [Some v] for a pointer
    to the [int32_t] [v]. *)
Definition fugu_power_hint (now : timespec) (hint : power_hint_t)
    (data : option Z) (st : hal) : outcome hal :=
  match hint with
  | POWER_HINT_INTERACTION | POWER_HINT_CPU_BOOST | POWER_HINT_LAUNCH_BOOST =>
      if negb (is_profile_valid (current_power_profile st)) then Done st
      else
        p <-! profiles_at (current_power_profile st) ;;
        if boostpulse_duration p =? 0 then Done st
        else if negb (check_governor st) then Done st
        else if pulse_duration (module_ st) <? boost_diff now st
             then Done (pulse now st)
             else Done st
  | POWER_HINT_SET_PROFILE =>
      match data with
      | Some v => set_power_profile v st
      | None => Fault NullDeref
      end
  | POWER_HINT_VSYNC => Done st
  | POWER_HINT_OTHER _ => Done st
  end.

Definition get_feature (feature : feature_t) : Z :=
  match feature with
  | POWER_FEATURE_SUPPORTED_PROFILES => PROFILE_MAX
  | POWER_FEATURE_OTHER _ => -1
  end.

End PowerHAL.

(* ===================================================================== *)
(** * Part II: DisplayModeControl.java                                    *)
(* ===================================================================== *)

(** ** Java evaluation: exceptions *)

Inductive exn : Type :=
| NumberFormatException
| ArrayIndexOutOfBoundsException
| NullPointerException.

Inductive jresult (A : Type) : Type :=
| Normal (a : A)
| Throw (e : exn).
Arguments Normal {A} a.
Arguments Throw {A} e.

Definition jbind {A B : Type} (m : jresult A) (k : A -> jresult B) : jresult B :=
  match m with
  | Normal a => k a
  | Throw e => Throw e
  end.

Notation "x <-j m ;; k" := (jbind m (fun x => k))
  (at level 100, m at next level, right associativity).

(** [try { body } catch (E1 | E2 e) { handler }] *)
Definition try_catch {A : Type} (body : jresult A)
    (caught : exn -> bool) (handler : jresult A) : jresult A :=
  match body with
  | Normal a => Normal a
  | Throw e => if caught e then handler else Throw e
  end.

(** [a[i]] on a Java array *)
Definition array_get {A : Type} (a : list A) (i : Z) : jresult A :=
  if (0 <=? i) && (i <? Z.of_nat (length a)) then
    match a !! Z.to_nat i with
    | Some x => Normal x
    | None => Throw ArrayIndexOutOfBoundsException
    end
  else Throw ArrayIndexOutOfBoundsException.

(** ** The parts of the platform the class calls *)

(** Modelled from the spec: [java.lang.Integer.parseInt], which is not
    among the sources ("parses as integer ... parse failure"): an optional
    sign and at least one decimal digit, nothing else, value in [int];
    anything else, [null] included, is a [NumberFormatException]. *)
Fixpoint parse_digits (acc : Z) (s : string) : option Z :=
  match s with
  | EmptyString => Some acc
  | String c r =>
      match digit_of c with
      | Some d => parse_digits (10 * acc + d) r
      | None => None
      end
  end.

Definition in_int (z : Z) : bool := (- 2 ^ 31 <=? z) && (z <? 2 ^ 31).

Definition parse_signed (negative : bool) (digits : string) : jresult Z :=
  match digits with
  | EmptyString => Throw NumberFormatException
  | _ =>
      match parse_digits 0 digits with
      | Some v =>
          let r := if negative then - v else v in
          if in_int r then Normal r else Throw NumberFormatException
      | None => Throw NumberFormatException
      end
  end.

Definition parseInt (s : option string) : jresult Z :=
  match s with
  | None => Throw NumberFormatException
  | Some EmptyString => Throw NumberFormatException
  | Some (String c r as whole) =>
      if Ascii.eqb c "-" then parse_signed true r
      else if Ascii.eqb c "+" then parse_signed false r
      else parse_signed false whole
  end.

(** [String.valueOf(int)] *)
Definition valueOf (i : Z) : string := pretty i.

(** A file of the fake file system: its text and what
    [File.canRead]/[File.canWrite] answer. *)
Record file : Type := mk_file {
  text : string;
  can_read : bool;
  can_write : bool
}.

(** The fake file system: the files that exist, the paths at which a file
    can be created, and the log of the [writeLine] calls issued so far
    (oldest first). *)
Record jfs : Type := mk_jfs {
  files : gmap string file;
  creatable : gset string;
  jlog : list (string * string)
}.

Definition is_newline (c : ascii) : bool :=
  Ascii.eqb c "010" || Ascii.eqb c "013".

Fixpoint until_newline (s : string) : string :=
  match s with
  | EmptyString => EmptyString
  | String c r => if is_newline c then EmptyString else String c (until_newline r)
  end.

(** [BufferedReader.readLine] on a fresh reader: [null] at end of input,
    otherwise the text before the first line terminator. *)
Definition first_line (s : string) : option string :=
  match s with
  | EmptyString => None
  | _ => Some (until_newline s)
  end.

(** Modelled from the spec: [FileUtils.readOneLine] of
    [org.cyanogenmod.hardware.util], which is not among the sources
    ("reads one line from the mode file"); a file that cannot be opened
    for reading gives [null]. *)
Definition readOneLine (fileName : string) (fs : jfs) : option string :=
  match files fs !! fileName with
  | Some f => if can_read f then first_line (text f) else None
  | None => None
  end.

(** Modelled from the spec: [FileUtils.writeLine] of
    [org.cyanogenmod.hardware.util], which is not among the sources
    ("writes the mode's id as a string to the mode file"): the file is
    opened for writing (created where that is possible), its text
    replaced by [value]; the result says whether that worked. *)
Definition writeLine (fileName value : string) (fs : jfs) : jfs * bool :=
  let log := (jlog fs ++ [(fileName, value)])%list in
  match files fs !! fileName with
  | Some f =>
      if can_write f
      then (mk_jfs (<[fileName := mk_file value (can_read f) true]> (files fs))
                   (creatable fs) log, true)
      else (mk_jfs (files fs) (creatable fs) log, false)
  | None =>
      if bool_decide (fileName ∈ creatable fs)
      then (mk_jfs (<[fileName := mk_file value true true]> (files fs))
                   (creatable fs) log, true)
      else (mk_jfs (files fs) (creatable fs) log, false)
  end.

(** ** The class *)

Module DisplayModeControl.

(** Modelled from the spec: [cyanogenmod.hardware.DisplayMode], which is
    not among the sources ("{id: small non-negative integer, name: human
    string}"); [id] is a Java [int]. *)
Record DisplayMode : Type := mk_DisplayMode { id : Z; name : string }.

Definition MODE_PATH : string := "/sys/class/mdnie/mdnie/mode".
Definition DEFAULT_PATH : string := "/data/misc/.displaymodedefault".

Definition DISPLAY_MODES : list DisplayMode :=
  [ mk_DisplayMode 0 "Dynamic";
    mk_DisplayMode 1 "Standard";
    mk_DisplayMode 2 "Cinema";
    mk_DisplayMode 3 "Auto" ].

Definition isFileReadable (fileName : string) (fs : jfs) : bool :=
  match files fs !! fileName with
  | Some f => can_read f
  | None => false
  end.

Definition isFileWritable (fileName : string) (fs : jfs) : bool :=
  match files fs !! fileName with
  | Some f => can_write f
  | None => false
  end.

Definition isSupported (fs : jfs) : bool :=
  isFileWritable MODE_PATH fs && isFileReadable MODE_PATH fs &&
  isFileWritable DEFAULT_PATH fs && isFileReadable DEFAULT_PATH fs.

Definition getAvailableModes : list DisplayMode := DISPLAY_MODES.

Definition caught_by_getter (e : exn) : bool :=
  match e with
  | NumberFormatException | ArrayIndexOutOfBoundsException => true
  | NullPointerException => false
  end.

Definition getCurrentMode (fs : jfs) : jresult (option DisplayMode) :=
  try_catch
    (mode <-j parseInt (readOneLine MODE_PATH fs) ;;
     m <-j array_get DISPLAY_MODES mode ;;
     Normal (Some m))
    caught_by_getter
    (Normal None).

(** [mode.id] *)
Definition get_id (mode : option DisplayMode) : jresult Z :=
  match mode with
  | Some m => Normal (id m)
  | None => Throw NullPointerException
  end.

Definition setMode (mode : option DisplayMode) (makeDefault : bool) (fs : jfs)
  : jresult (jfs * bool) :=
  match mode with
  | None => Normal (fs, false)
  | Some _ =>
      i <-j get_id mode ;;
      let (fs1, success) := writeLine MODE_PATH (valueOf i) fs in
      if success && makeDefault then
        i' <-j get_id mode ;;
        Normal (writeLine DEFAULT_PATH (valueOf i') fs1)
      else Normal (fs1, success)
  end.

Definition getDefaultMode (fs : jfs) : jresult (option DisplayMode) :=
  try_catch
    (mode <-j parseInt (readOneLine DEFAULT_PATH fs) ;;
     m <-j array_get DISPLAY_MODES mode ;;
     Normal (Some m))
    caught_by_getter
    (Normal None).

(** The static initializer, run when the class is loaded. *)
Definition clinit (fs : jfs) : jresult jfs :=
  if isFileReadable DEFAULT_PATH fs then
    d <-j getDefaultMode fs ;;
    r <-j setMode d false fs ;;
    Normal (fst r)
  else if isFileReadable MODE_PATH fs then
    c <-j getCurrentMode fs ;;
    r <-j setMode c true fs ;;
    Normal (fst r)
  else Normal fs.

End DisplayModeControl.

(* ===================================================================== *)
(** * Part III: vocabulary of the properties                              *)
(* ===================================================================== *)

(** ** Time *)

Definition ns_of (t : timespec) : Z := tv_sec t * 1000000000 + tv_nsec t.

(** The elapsed time from [b] to [a] in whole microseconds. *)
Definition elapsed_floor_us (a b : timespec) : Z := (ns_of a - ns_of b) / 1000.

(** A reading of the monotonic clock. *)
Definition normalized (t : timespec) : bool :=
  (0 <=? tv_sec t) && (0 <=? tv_nsec t) && (tv_nsec t <? 1000000000).

(** [u] is taken not before [t] and at most [pd] microseconds after it. *)
Definition follows_within (pd : Z) (t u : timespec) : bool :=
  normalized u && (ns_of t <=? ns_of u) && (ns_of u - ns_of t <=? 1000 * pd).

(** The calls of a sequence, in call order, are clocked monotonically and
    no two of them are more than [pd] microseconds apart. *)
Fixpoint within_window (pd : Z) (ts : list timespec) : bool :=
  match ts with
  | [] => true
  | t :: r =>
      normalized t && forallb (follows_within pd t) r && within_window pd r
  end.

(** ** The HAL as a whole *)

Section PowerVocabulary.

Variable long_bits : Z.
Variable PROFILE_MAX : Z.
Variable profiles : list power_profile.

(** The declaration [profiles[PROFILE_MAX]] of [power.h]. *)
Definition table_declared : Prop := Z.of_nat (length profiles) = PROFILE_MAX.

Definition is_boost_hint (hint : power_hint_t) : bool :=
  match hint with
  | POWER_HINT_INTERACTION | POWER_HINT_CPU_BOOST | POWER_HINT_LAUNCH_BOOST => true
  | _ => false
  end.

(** A valid profile is selected, its [boostpulse_duration] is not zero and
    the directory of the interactive governor is there. *)
Definition boost_ready (st : hal) : bool :=
  is_profile_valid PROFILE_MAX (current_power_profile st) &&
  match profiles !! Z.to_nat (current_power_profile st) with
  | Some p => negb (boostpulse_duration p =? 0)
  | None => false
  end &&
  check_governor st.

(** The same hint delivered once per clock reading of [ts]. *)
Fixpoint run_hints (hint : power_hint_t) (data : option Z)
    (ts : list timespec) (st : hal) : outcome hal :=
  match ts with
  | [] => Done st
  | t :: r =>
      st' <-! fugu_power_hint long_bits PROFILE_MAX profiles t hint data st ;;
      run_hints hint data r st'
  end.

(** The [sysfs_write] calls issued between two states. *)
Definition new_writes (st st' : hal) : list (string * string) :=
  drop (length (wlog st)) (wlog st').

(** Some call of the sequence comes later than [pulse_duration] after the
    boost recorded in [st]. *)
Definition some_call_due (ts : list timespec) (st : hal) : bool :=
  existsb (fun t => pulse_duration (module_ st) <? boost_diff long_bits t st) ts.

(** The entry points of the function-pointer table. *)
Inductive hal_call : Type :=
| CallInit (now : timespec)
| CallSetInteractive (on : Z)
| CallPowerHint (now : timespec) (hint : power_hint_t) (data : option Z)
| CallGetFeature (feature : feature_t).

Definition dispatch (c : hal_call) (st : hal) : outcome hal :=
  match c with
  | CallInit now => Done (fugu_power_init now st)
  | CallSetInteractive on => Done (fugu_power_set_interactive on st)
  | CallPowerHint now hint data =>
      fugu_power_hint long_bits PROFILE_MAX profiles now hint data st
  | CallGetFeature _ => Done st
  end.

Fixpoint run_calls (cs : list hal_call) (st : hal) : outcome hal :=
  match cs with
  | [] => Done st
  | c :: r => st' <-! dispatch c st ;; run_calls r st'
  end.

(** [current_power_profile] is the sentinel or a valid index. *)
Definition profile_inv (st : hal) : Prop :=
  current_power_profile st = -1 \/
  is_profile_valid PROFILE_MAX (current_power_profile st) = true.

End PowerVocabulary.

(** ** Sample data *)

(** A table in the shape of [power.h]: power save, balanced, performance. *)
Definition balanced : power_profile :=
  mk_profile 0 80000 90 1200000 1 "70 800000:80 1200000:90" 800000 1600000.

Definition sample_profiles : list power_profile :=
  [ mk_profile 0 0 90 800000 0 "90" 800000 1200000;
    balanced;
    mk_profile 1 80000 50 1600000 1 "50" 1600000 1600000 ].

Definition sample_sysfs : gmap string node :=
  list_to_map
    [ (INTERACTIVE_PATH, Dir);
      (BOOST_PULSE_SYSFS, Attr "");
      (BOOST_FREQ_SYSFS, Attr ("1600000" +:+ String "010" ""));
      (BOOST_DURATION_SYSFS, Attr ("20000" +:+ String "010" ""));
      (INTERACTIVE_PATH +:+ "boost", Attr "0");
      (INTERACTIVE_PATH +:+ "go_hispeed_load", Attr "99");
      (INTERACTIVE_PATH +:+ "io_is_busy", Attr "0");
      (INTERACTIVE_PATH +:+ "target_loads", Attr "90");
      (CPUFREQ_PATH +:+ "scaling_min_freq", Attr "800000");
      (CPUFREQ_PATH +:+ "scaling_max_freq", Attr "1600000") ].

(** A process that has loaded the module but neither initialised it nor
    selected a profile. *)
Definition fresh_hal : hal :=
  mk_hal (mk_module 0 (mk_timespec 0 0)) (-1) sample_sysfs [].

(** The same process after [init] at 100 s and SET_PROFILE(1) half a
    millisecond later: balanced profile, 20 ms pulses. *)
Definition booted_hal : hal :=
  match run_calls 32 3 sample_profiles
          [ CallInit (mk_timespec 100 0);
            CallPowerHint (mk_timespec 100 500000) POWER_HINT_SET_PROFILE (Some 1) ]
          fresh_hal with
  | Done st => st
  | Fault _ => fresh_hal
  end.

(** A node tree whose pulse duration is one microsecond short of a
    second. *)
Definition second_sysfs : gmap string node :=
  <[BOOST_DURATION_SYSFS := Attr ("999999" +:+ String "010" "")]> sample_sysfs.

(** A process on that tree after [init] at 4 s + 900 ns and
    SET_PROFILE(1) shortly after: balanced profile, pulses of 999999
    microseconds, last boost at 4 s + 900 ns. *)
Definition second_hal : hal :=
  match run_calls 32 3 sample_profiles
          [ CallInit (mk_timespec 4 900);
            CallPowerHint (mk_timespec 4 5000) POWER_HINT_SET_PROFILE (Some 1) ]
          (mk_hal (mk_module 0 (mk_timespec 0 0)) (-1) second_sysfs []) with
  | Done st => st
  | Fault _ => fresh_hal
  end.

(** ** The display shim *)

(** What the specification says a getter returns for the line it reads:
    the table entry at the index the line parses to, and no mode when
    the line is not an integer or the index is outside the table. *)
Definition mode_for_line (line : option string)
  : option DisplayModeControl.DisplayMode :=
  match parseInt line with
  | Normal i =>
      if (0 <=? i) && (i <? 4)
      then DisplayModeControl.DISPLAY_MODES !! Z.to_nat i
      else None
  | Throw _ => None
  end.

(** The [writeLine] calls issued between two states. *)
Definition new_lines (fs fs' : jfs) : list (string * string) :=
  drop (length (jlog fs)) (jlog fs').

(** A fake file system with a readable and writable mode node showing
    mode 2 and no default file yet; the default file can be created. *)
Definition sample_fs : jfs :=
  mk_jfs {[ DisplayModeControl.MODE_PATH := mk_file ("2" +:+ String "010" "") true true ]}
         {[ DisplayModeControl.DEFAULT_PATH ]} [].

(** ** Further vocabulary *)

(** The eight writes of [set_power_profile], in the order of the source. *)
Definition profile_writes (q : power_profile) : list (string * string) :=
  [ (INTERACTIVE_PATH +:+ "boost", pretty (boost q));
    (INTERACTIVE_PATH +:+ "boostpulse_duration", pretty (boostpulse_duration q));
    (INTERACTIVE_PATH +:+ "go_hispeed_load", pretty (go_hispeed_load q));
    (INTERACTIVE_PATH +:+ "hispeed_freq", pretty (hispeed_freq q));
    (INTERACTIVE_PATH +:+ "io_is_busy", pretty (io_is_busy q));
    (INTERACTIVE_PATH +:+ "target_loads", target_loads q);
    (CPUFREQ_PATH +:+ "scaling_min_freq", pretty (scaling_min_freq q));
    (CPUFREQ_PATH +:+ "scaling_max_freq", pretty (scaling_max_freq q)) ].

(** A list of writes issued one after the other, results ignored. *)
Definition apply_writes (ws : list (string * string)) (st : hal) : hal :=
  fold_left (fun acc w => fst (sysfs_write w.1 w.2 acc)) ws st.

(** What kind of node a path leads to: none, a directory ([Some true]) or
    an attribute file ([Some false]). *)
Definition shape (n : option node) : option bool :=
  match n with
  | None => None
  | Some Dir => Some true
  | Some (Attr _) => Some false
  end.

(** What a node holds once [s] has been written to it. *)
Definition stored (s : string) (n : option node) : option node :=
  match n with
  | Some (Attr c) => Some (Attr (overwrite s c))
  | other => other
  end.

(** The log without the boost pulses. *)
Definition profile_entries (log : list (string * string)) : list (string * string) :=
  filter (fun e => e.1 <> BOOST_PULSE_SYSFS) log.

(** The profile the HAL believes selected is the one it wrote last. *)
Definition log_tracks_profile (profiles : list power_profile) (st : hal) : Prop :=
  current_power_profile st = -1 \/
  exists q pre,
    0 <= current_power_profile st /\
    profiles !! Z.to_nat (current_power_profile st) = Some q /\
    profile_entries (wlog st) = (pre ++ profile_writes q)%list.

(** The readings [ts], in call order, are monotonic and lie between [lo]
    and [hi]. *)
Fixpoint clocked_between (lo hi : timespec) (ts : list timespec) : bool :=
  match ts with
  | [] => ns_of lo <=? ns_of hi
  | u :: r => normalized u && (ns_of lo <=? ns_of u) && clocked_between u hi r
  end.

(** Whether a file can be opened for writing: it is there and writable,
    or it is not there and can be created. *)
Definition can_open_for_write (fileName : string) (fs : jfs) : bool :=
  match files fs !! fileName with
  | Some f => can_write f
  | None => bool_decide (fileName ∈ creatable fs)
  end.

(** A write of [v] to [p] would change no file: [p] already holds [v]
    and is writable, or [p] cannot be opened for writing. *)
Definition settled (p v : string) (fs : jfs) : Prop :=
  (exists r, files fs !! p = Some (mk_file v r true)) \/
  can_open_for_write p fs = false.

(** The table entry with a given [id], if any. *)
Definition entry_for (i : Z) : option DisplayModeControl.DisplayMode :=
  if (0 <=? i) && (i <? 4)
  then DisplayModeControl.DISPLAY_MODES !! Z.to_nat i
  else None.

(** What [setMode] leaves in a file it has written. *)
Definition written (value : string) (f : option file) : option file :=
  match f with
  | Some g => Some (mk_file value (can_read g) true)
  | None => Some (mk_file value true true)
  end.

(** A fake file system on which the class is supported: both files are
    there, readable and writable; the default file names mode 1, the
    mode node shows mode 3. *)
Definition supported_fs : jfs :=
  mk_jfs (list_to_map
            [ (DisplayModeControl.MODE_PATH, mk_file ("3" +:+ String "010" "") true true);
              (DisplayModeControl.DEFAULT_PATH, mk_file "1" true true) ])
         ∅ [].

(** The mode node accepts writes, the default file is missing and cannot
    be created. *)
Definition readonly_data_fs : jfs :=
  mk_jfs {[ DisplayModeControl.MODE_PATH := mk_file ("0" +:+ String "010" "") true true ]}
         ∅ [].

(* ===================================================================== *)
(** * Part IV: properties of the power HAL                                *)
(* ===================================================================== *)

(** ** Arithmetic of the fixed-width types *)

(** Linear arithmetic with C's [/] (rounding towards zero) and Rocq's
    (rounding down) by a constant. *)
Ltac quot_lia := Z.to_euclidean_division_equations; lia.

Lemma Done_inj {A : Type} (a b : A) : Done a = Done b -> a = b.
Proof. intros H. exact (f_equal (fun o => match o with Done x => x | Fault _ => a end) H). Qed.

Lemma wrap_signed_small bits z :
  1 <= bits -> - 2 ^ (bits - 1) <= z < 2 ^ (bits - 1) -> wrap_signed bits z = z.
Proof.
  intros Hb Hz. unfold wrap_signed.
  assert (Hp : 2 ^ bits = 2 * 2 ^ (bits - 1)).
  { replace bits with (Z.succ (bits - 1)) at 1 by lia.
    rewrite Z.pow_succ_r by lia. reflexivity. }
  rewrite Z.mod_small by lia. lia.
Qed.

Lemma pow_long_lower bits : 32 <= bits -> 2 ^ 31 <= 2 ^ (bits - 1).
Proof. intros H. apply Z.pow_le_mono_r; lia. Qed.

Lemma pow_long_upper bits : bits <= 64 -> 2 ^ (bits - 1) <= 2 ^ 63.
Proof.
  intros H. destruct (Z_lt_le_dec (bits - 1) 0) as [Hn | Hn].
  - rewrite Z.pow_neg_r by assumption. lia.
  - apply Z.pow_le_mono_r; lia.
Qed.

Lemma normalized_spec t :
  normalized t = true <-> 0 <= tv_sec t /\ 0 <= tv_nsec t < 1000000000.
Proof. unfold normalized. rewrite !andb_true_iff. lia. Qed.

Lemma follows_within_spec pd t u :
  follows_within pd t u = true <->
  normalized u = true /\ 0 <= ns_of u - ns_of t <= 1000 * pd.
Proof.
  unfold follows_within. rewrite !andb_true_iff, !Z.leb_le.
  split; intros H; repeat split; try tauto; lia.
Qed.

(** What the two helpers compute for a later reading [a] and an earlier
    one [b], as long as the product fits in a [long]: the nanosecond
    part is rounded towards zero, not down. *)
Lemma elapsed_us_value bits a b :
  32 <= bits <= 64 ->
  normalized a = true -> normalized b = true ->
  ns_of b <= ns_of a ->
  (tv_sec a - tv_sec b + 1) * 1000000 <= 2 ^ (bits - 1) ->
  timespec_to_us bits (timespec_sub bits a b) =
  (tv_sec a - tv_sec b) * 1000000 + Z.quot (tv_nsec a - tv_nsec b) 1000.
Proof.
  intros Hb Ha Hbn Hle Hfit.
  apply normalized_spec in Ha. apply normalized_spec in Hbn.
  unfold ns_of in Hle.
  pose proof (pow_long_lower bits ltac:(lia)) as Hlo.
  pose proof (pow_long_upper bits ltac:(lia)) as Hhi.
  assert (Hsec : tv_sec b <= tv_sec a) by lia.
  unfold timespec_sub, timespec_to_us, wrap_long.
  destruct (Z.leb_spec (tv_sec b) (tv_sec a)) as [_ | Hc]; [| lia].
  cbn [tv_sec tv_nsec].
  assert (Hq : -999999 <= Z.quot (tv_nsec a - tv_nsec b) 1000 <= 999999)
    by quot_lia.
  assert (Hnonneg : 0 <= (tv_sec a - tv_sec b) * 1000000
                         + Z.quot (tv_nsec a - tv_nsec b) 1000).
  { destruct (Z.eq_dec (tv_sec a) (tv_sec b)) as [He | Hne].
    - rewrite He, Z.sub_diag, Z.mul_0_l, Z.add_0_l.
      apply Z.quot_pos; lia.
    - lia. }
  rewrite (wrap_signed_small bits (tv_sec a - tv_sec b)) by lia.
  rewrite (wrap_signed_small bits (tv_nsec a - tv_nsec b)) by lia.
  rewrite (wrap_signed_small bits ((tv_sec a - tv_sec b) * 1000000)) by lia.
  rewrite wrap_signed_small by lia.
  unfold to_uint64. apply Z.mod_small. lia.
Qed.

(** The computed value never falls short of the whole microseconds and
    exceeds them by at most one. *)
Lemma elapsed_us_bounds bits a b :
  32 <= bits <= 64 ->
  normalized a = true -> normalized b = true ->
  ns_of b <= ns_of a ->
  (tv_sec a - tv_sec b + 1) * 1000000 <= 2 ^ (bits - 1) ->
  elapsed_floor_us a b <= timespec_to_us bits (timespec_sub bits a b)
    <= elapsed_floor_us a b + 1.
Proof.
  intros Hb Ha Hbn Hle Hfit.
  rewrite elapsed_us_value by assumption.
  unfold elapsed_floor_us, ns_of.
  quot_lia.
Qed.

(** Inside a window of [pd] microseconds the computed value stays at or
    below [pd]. *)
Lemma elapsed_us_in_window bits pd t u :
  32 <= bits <= 64 ->
  pd + 2000000 <= 2 ^ (bits - 1) ->
  normalized t = true ->
  follows_within pd t u = true ->
  timespec_to_us bits (timespec_sub bits u t) <= pd.
Proof.
  intros Hb Hpd Ht Hu.
  apply follows_within_spec in Hu. destruct Hu as [Hun Hw].
  pose proof Ht as Ht'. pose proof Hun as Hun'.
  apply normalized_spec in Ht'. apply normalized_spec in Hun'.
  assert (Hfit : (tv_sec u - tv_sec t + 1) * 1000000 <= 2 ^ (bits - 1)).
  { unfold ns_of in Hw. lia. }
  rewrite elapsed_us_value by (try assumption; lia).
  unfold ns_of in Hw.
  quot_lia.
Qed.

(** ** The hint handler *)

Section PowerProperties.

Variable long_bits : Z.
Variable PROFILE_MAX : Z.
Variable profiles : list power_profile.

Local Abbreviation power_hint := (fugu_power_hint long_bits PROFILE_MAX profiles).
Local Abbreviation valid := (is_profile_valid PROFILE_MAX).
Local Abbreviation ready := (boost_ready PROFILE_MAX profiles).
Local Abbreviation diff := (boost_diff long_bits).

Hypothesis table : table_declared PROFILE_MAX profiles.

Lemma profiles_at_valid i :
  valid i = true ->
  exists p, profiles !! Z.to_nat i = Some p /\ profiles_at profiles i = Done p.
Proof using table.
  unfold is_profile_valid, profiles_at. intros H.
  apply andb_true_iff in H. destruct H as [H0 H1].
  rewrite H0. apply Z.leb_le in H0. apply Z.ltb_lt in H1.
  destruct (profiles !! Z.to_nat i) as [p |] eqn:Hp.
  - exists p. split; reflexivity.
  - apply lookup_ge_None_1 in Hp. unfold table_declared in table. lia.
Qed.

Lemma boost_path_not_governor : BOOST_PULSE_SYSFS <> INTERACTIVE_PATH.
Proof. discriminate. Qed.

Lemma check_governor_sysfs_write path s st :
  path <> INTERACTIVE_PATH ->
  check_governor (fst (sysfs_write path s st)) = check_governor st.
Proof.
  intros Hne. unfold check_governor, sysfs_write.
  destruct (sysfs st !! path) as [[| c] |]; cbn [fst sysfs log_write]; try reflexivity.
  rewrite lookup_insert_ne by assumption. reflexivity.
Qed.

Lemma wlog_sysfs_write path s st :
  wlog (fst (sysfs_write path s st)) = (wlog st ++ [(path, s)])%list.
Proof.
  unfold sysfs_write.
  destruct (sysfs st !! path) as [[| c] |]; reflexivity.
Qed.

Lemma current_sysfs_write path s st :
  current_power_profile (fst (sysfs_write path s st)) = current_power_profile st.
Proof.
  unfold sysfs_write.
  destruct (sysfs st !! path) as [[| c] |]; reflexivity.
Qed.

Lemma module_sysfs_write path s st :
  module_ (fst (sysfs_write path s st)) = module_ st.
Proof.
  unfold sysfs_write.
  destruct (sysfs st !! path) as [[| c] |]; reflexivity.
Qed.

Lemma pulse_fields now st :
  wlog (pulse now st) = (wlog st ++ [(BOOST_PULSE_SYSFS, "1")])%list /\
  last_boost_time (module_ (pulse now st)) = now /\
  pulse_duration (module_ (pulse now st)) = pulse_duration (module_ st) /\
  current_power_profile (pulse now st) = current_power_profile st /\
  check_governor (pulse now st) = check_governor st.
Proof.
  unfold pulse, set_module.
  cbn [wlog module_ last_boost_time pulse_duration current_power_profile].
  rewrite wlog_sysfs_write, module_sysfs_write, current_sysfs_write.
  repeat split.
  unfold check_governor at 1. cbn [sysfs].
  apply (check_governor_sysfs_write BOOST_PULSE_SYSFS "1" st).
  exact boost_path_not_governor.
Qed.

Lemma boost_ready_pulse now st : ready (pulse now st) = ready st.
Proof.
  destruct (pulse_fields now st) as (_ & _ & _ & Hc & Hg).
  unfold boost_ready. rewrite Hc, Hg. reflexivity.
Qed.

(** One boost hint, in one equation. *)
Lemma power_hint_boost_step now hint data st :
  is_boost_hint hint = true ->
  power_hint now hint data st =
  Done (if ready st && (pulse_duration (module_ st) <? diff now st)
        then pulse now st else st).
Proof using table.
  intros Hh.
  assert (Hbody :
    (if negb (valid (current_power_profile st)) then Done st
     else
       p <-! profiles_at profiles (current_power_profile st) ;;
       if boostpulse_duration p =? 0 then Done st
       else if negb (check_governor st) then Done st
       else if pulse_duration (module_ st) <? diff now st
            then Done (pulse now st)
            else Done st) =
    Done (if ready st && (pulse_duration (module_ st) <? diff now st)
          then pulse now st else st)).
  { unfold boost_ready.
    destruct (valid (current_power_profile st)) eqn:Hv; cbn [negb andb]; [| reflexivity].
    destruct (profiles_at_valid _ Hv) as (p & Hl & Hp).
    rewrite Hp, Hl. cbn [obind].
    destruct (boostpulse_duration p =? 0); cbn [negb andb]; [reflexivity |].
    destruct (check_governor st); cbn [negb andb]; [| reflexivity].
    destruct (pulse_duration (module_ st) <? diff now st); reflexivity. }
  destruct hint; try discriminate Hh; exact Hbody.
Qed.

(** The gate of the three boost hints, in terms of the number the
    handler itself computes ([boost_diff]): the hint does nothing (same
    state: no [sysfs_write] call, time stamp unchanged) unless a valid
    profile is selected, its [boostpulse_duration] is not zero and the
    governor directory is there.  When these hold, ["1"] is written to
    the boost-pulse node and [last_boost_time] becomes the current time
    exactly when [boost_diff] is strictly more than [pulse_duration].
    (Written means that [sysfs_write] is called: the handler ignores its
    result.)  How [boost_diff] relates to the time that has elapsed is
    the subject of [elapsed_us_value] and of the two theorems on the
    elapsed time below. *)
Theorem power_hint_boost_gate now hint data st :
  is_boost_hint hint = true ->
  (ready st = false -> power_hint now hint data st = Done st) /\
  (ready st = true -> diff now st <= pulse_duration (module_ st) ->
   power_hint now hint data st = Done st) /\
  (ready st = true -> pulse_duration (module_ st) < diff now st ->
   exists st',
     power_hint now hint data st = Done st' /\
     new_writes st st' = [(BOOST_PULSE_SYSFS, "1")] /\
     sysfs st' = sysfs (fst (sysfs_write BOOST_PULSE_SYSFS "1" st)) /\
     last_boost_time (module_ st') = now /\
     pulse_duration (module_ st') = pulse_duration (module_ st) /\
     current_power_profile st' = current_power_profile st).
Proof using table.
  intros Hh. rewrite (power_hint_boost_step now hint data st Hh).
  split; [| split].
  - intros Hr. rewrite Hr. reflexivity.
  - intros Hr Hd. rewrite Hr. cbn [andb].
    destruct (Z.ltb_spec (pulse_duration (module_ st)) (diff now st)); [lia | reflexivity].
  - intros Hr Hd. rewrite Hr. cbn [andb].
    destruct (Z.ltb_spec (pulse_duration (module_ st)) (diff now st)); [| lia].
    exists (pulse now st).
    destruct (pulse_fields now st) as (Hw & Hl & Hp & Hc & _).
    repeat split; try assumption.
    unfold new_writes. rewrite Hw. apply drop_app_length.
Qed.

(** ** Profiles *)

Lemma set_power_profile_cases p st :
  set_power_profile PROFILE_MAX profiles p st = Done st \/
  exists q,
    valid p = true /\ profiles !! Z.to_nat p = Some q /\
    p <> current_power_profile st /\ check_governor st = true /\
    set_power_profile PROFILE_MAX profiles p st =
      Done (set_current p (write_profile q st)).
Proof using table.
  unfold set_power_profile.
  destruct (valid p) eqn:Hv; cbn [negb]; [| left; reflexivity].
  destruct (Z.eqb_spec p (current_power_profile st)) as [He | Hne]; [left; reflexivity |].
  destruct (check_governor st) eqn:Hg; cbn [negb]; [| left; reflexivity].
  destruct (profiles_at_valid _ Hv) as (q & Hl & Hq).
  right. exists q. rewrite Hq. cbn [obind]. repeat split; assumption.
Qed.

Lemma wlog_write_profile q st :
  wlog (write_profile q st) =
  (wlog st ++
   [ (INTERACTIVE_PATH +:+ "boost", pretty (boost q));
     (INTERACTIVE_PATH +:+ "boostpulse_duration", pretty (boostpulse_duration q));
     (INTERACTIVE_PATH +:+ "go_hispeed_load", pretty (go_hispeed_load q));
     (INTERACTIVE_PATH +:+ "hispeed_freq", pretty (hispeed_freq q));
     (INTERACTIVE_PATH +:+ "io_is_busy", pretty (io_is_busy q));
     (INTERACTIVE_PATH +:+ "target_loads", target_loads q);
     (CPUFREQ_PATH +:+ "scaling_min_freq", pretty (scaling_min_freq q));
     (CPUFREQ_PATH +:+ "scaling_max_freq", pretty (scaling_max_freq q)) ])%list.
Proof.
  unfold write_profile, sysfs_write_int.
  rewrite !wlog_sysfs_write, <- !app_assoc. reflexivity.
Qed.

Lemma wlog_set_current p st : wlog (set_current p st) = wlog st.
Proof. reflexivity. Qed.

(** A call that gets past the three guards issues the eight writes, in
    the order of the source, and selects the profile. *)
Lemma set_power_profile_applies p st :
  valid p = true -> p <> current_power_profile st -> check_governor st = true ->
  exists q st1,
    profiles !! Z.to_nat p = Some q /\
    set_power_profile PROFILE_MAX profiles p st = Done st1 /\
    current_power_profile st1 = p /\
    length (new_writes st st1) = 8%nat.
Proof using table.
  intros Hv Hne Hg.
  destruct (profiles_at_valid _ Hv) as (q & Hl & Hq).
  exists q, (set_current p (write_profile q st)).
  split; [exact Hl |]. split.
  - unfold set_power_profile. rewrite Hv, Hg. cbn [negb].
    destruct (Z.eqb_spec p (current_power_profile st)); [contradiction |].
    rewrite Hq. reflexivity.
  - split; [reflexivity |].
    unfold new_writes.
    rewrite wlog_set_current, wlog_write_profile, drop_app_length. reflexivity.
Qed.

(** C4. [set_power_profile] is idempotent: when a call with a valid [p]
    has completed with the eight writes done, the same call made again at
    once returns the very same state: it issues no write, changes no
    node and leaves [current_power_profile] as it is. *)
Theorem set_power_profile_idempotent p st st1 :
  valid p = true ->
  set_power_profile PROFILE_MAX profiles p st = Done st1 ->
  length (new_writes st st1) = 8%nat ->
  exists st2,
    set_power_profile PROFILE_MAX profiles p st1 = Done st2 /\
    new_writes st1 st2 = [] /\
    sysfs st2 = sysfs st1 /\
    current_power_profile st2 = current_power_profile st1 /\
    st2 = st1.
Proof using table.
  intros Hv Hfirst Hlen.
  assert (Hcur : current_power_profile st1 = p).
  { destruct (set_power_profile_cases p st) as [Hsame | (q & _ & _ & _ & _ & Hq)].
    - rewrite Hsame in Hfirst. injection Hfirst as <-.
      unfold new_writes in Hlen. rewrite drop_all in Hlen. discriminate Hlen.
    - rewrite Hq in Hfirst. injection Hfirst as <-. reflexivity. }
  exists st1. unfold set_power_profile. rewrite Hv, Hcur, Z.eqb_refl. cbn [negb].
  unfold new_writes. rewrite drop_all. repeat split; congruence.
Qed.

Lemma set_power_profile_safe v st :
  profile_inv PROFILE_MAX st ->
  (forall i, set_power_profile PROFILE_MAX profiles v st <> Fault (OutOfBounds i)) /\
  (forall st', set_power_profile PROFILE_MAX profiles v st = Done st' ->
     profile_inv PROFILE_MAX st').
Proof using table.
  intros Hinv.
  destruct (set_power_profile_cases v st) as [Hs | (q & Hv & _ & _ & _ & Hq)].
  - rewrite Hs. split; [discriminate |]. intros st' [= <-]. exact Hinv.
  - rewrite Hq. split; [discriminate |]. intros st' [= <-].
    right. exact Hv.
Qed.

(** One call: no access outside the table, and the invariant is kept. *)
Lemma dispatch_safe c st :
  profile_inv PROFILE_MAX st ->
  (forall i, dispatch long_bits PROFILE_MAX profiles c st <> Fault (OutOfBounds i)) /\
  (forall st', dispatch long_bits PROFILE_MAX profiles c st = Done st' ->
     profile_inv PROFILE_MAX st').
Proof using table.
  intros Hinv.
  destruct c as [now | on | now hint data | f]; cbn [dispatch];
    try (split; [discriminate | intros st' [= <-]; exact Hinv]).
  destruct (is_boost_hint hint) eqn:Hh.
  - rewrite (power_hint_boost_step now hint data st Hh).
    split; [discriminate |]. intros st' [= <-].
    destruct (ready st && _); [| exact Hinv].
    destruct (pulse_fields now st) as (_ & _ & _ & Hc & _).
    unfold profile_inv. rewrite Hc. exact Hinv.
  - destruct hint; try discriminate Hh; cbn [fugu_power_hint];
      try (split; [discriminate | intros st' [= <-]; exact Hinv]).
    destruct data as [v |]; [apply set_power_profile_safe; exact Hinv |].
    split; discriminate.
Qed.

(** Any sequence of calls: the same, by induction on the sequence. *)
Lemma run_calls_safe cs : forall st,
  profile_inv PROFILE_MAX st ->
  (forall i, run_calls long_bits PROFILE_MAX profiles cs st <> Fault (OutOfBounds i)) /\
  (forall st', run_calls long_bits PROFILE_MAX profiles cs st = Done st' ->
     profile_inv PROFILE_MAX st').
Proof using table.
  induction cs as [| c r IH]; intros st Hinv; cbn [run_calls].
  - split; [discriminate |]. intros st' [= <-]. exact Hinv.
  - destruct (dispatch_safe c st Hinv) as [Hno Hkeep].
    destruct (dispatch long_bits PROFILE_MAX profiles c st) as [st1 | f] eqn:Hd;
      cbn [obind].
    + apply IH. apply Hkeep. reflexivity.
    + split; [| discriminate]. intros i [= ->]. exact (Hno i eq_refl).
Qed.

(** C5. Every entry point keeps [current_power_profile] at the sentinel
    [-1] or at a valid index, and no call indexes [profiles] outside the
    table; SET_PROFILE with an id that is out of range returns the state
    it was given (nothing selected, nothing written). *)
Theorem hal_calls_keep_profile_valid c st :
  profile_inv PROFILE_MAX st ->
  (forall i, dispatch long_bits PROFILE_MAX profiles c st <> Fault (OutOfBounds i)) /\
  (forall st', dispatch long_bits PROFILE_MAX profiles c st = Done st' ->
     profile_inv PROFILE_MAX st') /\
  (forall now v, valid v = false ->
     power_hint now POWER_HINT_SET_PROFILE (Some v) st = Done st).
Proof using table.
  intros Hinv. destruct (dispatch_safe c st Hinv) as [Hno Hkeep].
  split; [exact Hno |]. split; [exact Hkeep |].
  intros now v Hv. cbn [fugu_power_hint]. unfold set_power_profile.
  rewrite Hv. reflexivity.
Qed.

(** ** Bursts of hints *)

(** After a boost at [t0], calls inside the window of [t0] change
    nothing. *)
Lemma run_hints_quiet hint data ts st :
  32 <= long_bits <= 64 ->
  pulse_duration (module_ st) + 2000000 <= 2 ^ (long_bits - 1) ->
  is_boost_hint hint = true ->
  normalized (last_boost_time (module_ st)) = true ->
  forallb (follows_within (pulse_duration (module_ st))
                          (last_boost_time (module_ st))) ts = true ->
  run_hints long_bits PROFILE_MAX profiles hint data ts st = Done st.
Proof using table.
  intros Hb Hpd Hh Hn. induction ts as [| t r IH]; intros Hall.
  - reflexivity.
  - cbn [forallb] in Hall. apply andb_true_iff in Hall. destruct Hall as [Ht Hr].
    cbn [run_hints]. rewrite (power_hint_boost_step t hint data st Hh).
    pose proof (elapsed_us_in_window long_bits _ _ t Hb Hpd Hn Ht) as Hd.
    fold (boost_diff long_bits t st) in Hd.
    destruct (Z.ltb_spec (pulse_duration (module_ st)) (diff t st)); [lia |].
    rewrite andb_false_r. cbn [obind]. apply IH. exact Hr.
Qed.

Lemma run_hints_window hint data ts st :
  32 <= long_bits <= 64 ->
  pulse_duration (module_ st) + 2000000 <= 2 ^ (long_bits - 1) ->
  is_boost_hint hint = true ->
  ready st = true ->
  within_window (pulse_duration (module_ st)) ts = true ->
  exists st',
    run_hints long_bits PROFILE_MAX profiles hint data ts st = Done st' /\
    new_writes st st' =
      if some_call_due long_bits ts st then [(BOOST_PULSE_SYSFS, "1")] else [].
Proof using table.
  intros Hb Hpd Hh Hr. induction ts as [| t r IH]; intros Hw.
  - exists st. split; [reflexivity |]. unfold new_writes. apply drop_all.
  - cbn [within_window] in Hw.
    apply andb_true_iff in Hw. destruct Hw as [Hw Hrest].
    apply andb_true_iff in Hw. destruct Hw as [Hn Hall].
    cbn [run_hints some_call_due existsb].
    rewrite (power_hint_boost_step t hint data st Hh), Hr. cbn [andb].
    destruct (pulse_duration (module_ st) <? diff t st) eqn:Hdue; cbn [obind orb].
    + destruct (pulse_fields t st) as (Hlog & Hlast & Hsame & _ & _).
      exists (pulse t st). split.
      * apply run_hints_quiet; rewrite ?Hsame, ?Hlast; assumption.
      * unfold new_writes. rewrite Hlog. apply drop_app_length.
    + apply IH. exact Hrest.
Qed.

(** C2, as amended. With a valid profile of non-zero
    [boostpulse_duration] selected and the governor present, a sequence
    of INTERACTION hints clocked inside one window of [pulse_duration]
    issues at most one write: exactly the one write of ["1"] to the
    boost-pulse node when some call of the sequence comes later than
    [pulse_duration] after the boost recorded before the sequence, and
    none otherwise.  ([pulse_duration] plus two seconds has to fit in a
    [long].) *)
Theorem rapid_hints_at_most_one_pulse data ts st :
  32 <= long_bits <= 64 ->
  pulse_duration (module_ st) + 2000000 <= 2 ^ (long_bits - 1) ->
  ready st = true ->
  within_window (pulse_duration (module_ st)) ts = true ->
  exists st',
    run_hints long_bits PROFILE_MAX profiles POWER_HINT_INTERACTION data ts st
      = Done st' /\
    new_writes st st' =
      if some_call_due long_bits ts st then [(BOOST_PULSE_SYSFS, "1")] else [].
Proof using table.
  intros Hb Hpd Hr Hw. apply run_hints_window; try assumption. reflexivity.
Qed.

End PowerProperties.

(** ** The module on the sample data *)

Example booted_hal_fields :
  current_power_profile booted_hal = 1 /\
  pulse_duration (module_ booted_hal) = 20000 /\
  last_boost_time (module_ booted_hal) = mk_timespec 100 0 /\
  sysfs booted_hal !! (INTERACTIVE_PATH +:+ "target_loads")
    = Some (Attr "70 800000:80 1200000:90") /\
  length (wlog booted_hal) = 8%nat.
Proof. vm_compute. repeat split. Qed.

(** Without the duration node [init] falls back to 20 ms. *)
Example init_fallback :
  pulse_duration
    (module_ (fugu_power_init (mk_timespec 7 0)
                (mk_hal (mk_module 0 (mk_timespec 0 0)) (-1) ∅ [])))
  = 20000.
Proof. vm_compute. reflexivity. Qed.

Example get_feature_profiles :
  get_feature 3 POWER_FEATURE_SUPPORTED_PROFILES = 3 /\
  get_feature 3 (POWER_FEATURE_OTHER 1) = -1.
Proof. split; reflexivity. Qed.

(** The gate closes behind a pulse: 30 ms after [init] a hint pulses,
    5 ms later the next one does not. *)
Example pulse_then_quiet :
  exists st1,
    fugu_power_hint 32 3 sample_profiles (mk_timespec 100 30000000)
                    POWER_HINT_CPU_BOOST None booted_hal = Done st1 /\
    new_writes booted_hal st1 = [(BOOST_PULSE_SYSFS, "1")] /\
    sysfs st1 !! BOOST_PULSE_SYSFS = Some (Attr "1") /\
    fugu_power_hint 32 3 sample_profiles (mk_timespec 100 35000000)
                    POWER_HINT_LAUNCH_BOOST None st1 = Done st1.
Proof.
  exists (pulse (mk_timespec 100 30000000) booted_hal).
  split; [reflexivity |]. split; [vm_compute; reflexivity |].
  split; [vm_compute; reflexivity | reflexivity].
Qed.

(** ** Instances *)

Lemma power_hint_boost_gate_witness :
  table_declared 3 sample_profiles /\
  is_boost_hint POWER_HINT_INTERACTION = true /\
  exists st',
    fugu_power_hint 32 3 sample_profiles (mk_timespec 100 30000000)
                    POWER_HINT_INTERACTION None booted_hal = Done st' /\
    new_writes booted_hal st' = [(BOOST_PULSE_SYSFS, "1")] /\
    last_boost_time (module_ st') = mk_timespec 100 30000000.
Proof.
  split; [reflexivity |]. split; [reflexivity |].
  destruct (power_hint_boost_gate 32 3 sample_profiles eq_refl
              (mk_timespec 100 30000000) POWER_HINT_INTERACTION None
              booted_hal eq_refl) as (_ & _ & H).
  destruct H as (st' & H1 & H2 & _ & H4 & _);
    [vm_compute; reflexivity | vm_compute; reflexivity |].
  exists st'. repeat split; assumption.
Defined.

Lemma set_power_profile_idempotent_witness :
  table_declared 3 sample_profiles /\
  is_profile_valid 3 1 = true /\
  set_power_profile 3 sample_profiles 1 fresh_hal
    = Done (set_current 1 (write_profile balanced fresh_hal)) /\
  length (new_writes fresh_hal (set_current 1 (write_profile balanced fresh_hal)))
    = 8%nat /\
  exists st2,
    set_power_profile 3 sample_profiles 1
        (set_current 1 (write_profile balanced fresh_hal)) = Done st2 /\
    new_writes (set_current 1 (write_profile balanced fresh_hal)) st2 = [].
Proof.
  split; [reflexivity |]. split; [reflexivity |].
  assert (H1 : set_power_profile 3 sample_profiles 1 fresh_hal
               = Done (set_current 1 (write_profile balanced fresh_hal)))
    by reflexivity.
  assert (H2 : length (new_writes fresh_hal
                 (set_current 1 (write_profile balanced fresh_hal))) = 8%nat)
    by (vm_compute; reflexivity).
  split; [exact H1 |]. split; [exact H2 |].
  destruct (set_power_profile_idempotent 3 sample_profiles eq_refl 1 fresh_hal
              _ eq_refl H1 H2) as (st2 & Ha & Hb & _).
  exists st2. split; assumption.
Defined.

Lemma hal_calls_keep_profile_valid_witness :
  table_declared 3 sample_profiles /\
  profile_inv 3 booted_hal /\
  (forall i,
     dispatch 32 3 sample_profiles
       (CallPowerHint (mk_timespec 101 0) POWER_HINT_SET_PROFILE (Some 7))
       booted_hal <> Fault (OutOfBounds i)) /\
  fugu_power_hint 32 3 sample_profiles (mk_timespec 101 0)
                  POWER_HINT_SET_PROFILE (Some 7) booted_hal = Done booted_hal.
Proof.
  assert (Hinv : profile_inv 3 booted_hal) by (right; vm_compute; reflexivity).
  split; [reflexivity |]. split; [exact Hinv |].
  destruct (hal_calls_keep_profile_valid 32 3 sample_profiles eq_refl
              (CallPowerHint (mk_timespec 101 0) POWER_HINT_SET_PROFILE (Some 7))
              booted_hal Hinv) as (Ha & _ & Hc).
  split; [exact Ha |]. apply Hc. reflexivity.
Defined.

Lemma rapid_hints_at_most_one_pulse_witness :
  table_declared 3 sample_profiles /\
  32 <= 32 <= 64 /\
  pulse_duration (module_ booted_hal) + 2000000 <= 2 ^ (32 - 1) /\
  boost_ready 3 sample_profiles booted_hal = true /\
  within_window (pulse_duration (module_ booted_hal))
    [mk_timespec 100 30000000; mk_timespec 100 35000000; mk_timespec 100 45000000]
    = true /\
  exists st',
    run_hints 32 3 sample_profiles POWER_HINT_INTERACTION None
      [mk_timespec 100 30000000; mk_timespec 100 35000000; mk_timespec 100 45000000]
      booted_hal = Done st' /\
    new_writes booted_hal st' = [(BOOST_PULSE_SYSFS, "1")].
Proof.
  split; [reflexivity |]. split; [lia |].
  split; [vm_compute; discriminate |].
  split; [vm_compute; reflexivity |]. split; [vm_compute; reflexivity |].
  destruct (rapid_hints_at_most_one_pulse 32 3 sample_profiles eq_refl None
              [mk_timespec 100 30000000; mk_timespec 100 35000000;
               mk_timespec 100 45000000] booted_hal)
    as (st' & Hrun & Hnew);
    [lia | vm_compute; discriminate | vm_compute; reflexivity
     | vm_compute; reflexivity |].
  exists st'. split; [exact Hrun |]. exact Hnew.
Defined.

(** C2, as stated, fails right after a boost (here: right after [init]):
    two INTERACTION hints one and two milliseconds after [init], well
    inside one window of 20 ms, with the balanced profile selected and
    the governor present, issue no write at all. *)
Lemma rapid_hints_after_boot_no_pulse :
  boost_ready 3 sample_profiles booted_hal = true /\
  within_window (pulse_duration (module_ booted_hal))
    [mk_timespec 100 1000000; mk_timespec 100 2000000] = true /\
  ~ (exists st',
       run_hints 32 3 sample_profiles POWER_HINT_INTERACTION None
         [mk_timespec 100 1000000; mk_timespec 100 2000000] booted_hal
         = Done st' /\
       new_writes booted_hal st' = [(BOOST_PULSE_SYSFS, "1")]).
Proof.
  split; [vm_compute; reflexivity |]. split; [vm_compute; reflexivity |].
  intros (st' & Hrun & Hnew).
  assert (H : run_hints 32 3 sample_profiles POWER_HINT_INTERACTION None
                [mk_timespec 100 1000000; mk_timespec 100 2000000] booted_hal
              = Done booted_hal) by reflexivity.
  rewrite H in Hrun. apply Done_inj in Hrun. subst st'.
  unfold new_writes in Hnew. rewrite drop_all in Hnew. discriminate Hnew.
Qed.

(** Why the amended C2 asks that the window fits in a [long]: with a 32
    bit [long] and a pulse duration of 4000 s the product
    [tv_sec * 1000000] overflows inside the window, and two hints 2200 s
    apart both pulse. *)
Remark long_overflow_two_pulses :
  let st := mk_hal (mk_module 4000000000 (mk_timespec 0 0)) 1 sample_sysfs [] in
  let ts := [mk_timespec 3000 0; mk_timespec 5200 0] in
  within_window (pulse_duration (module_ st)) ts = true /\
  exists st',
    run_hints 32 3 sample_profiles POWER_HINT_INTERACTION None ts st = Done st' /\
    new_writes st st' = [(BOOST_PULSE_SYSFS, "1"); (BOOST_PULSE_SYSFS, "1")].
Proof.
  split; [vm_compute; reflexivity |].
  exists (pulse (mk_timespec 5200 0)
            (pulse (mk_timespec 3000 0)
               (mk_hal (mk_module 4000000000 (mk_timespec 0 0)) 1 sample_sysfs []))).
  split; [reflexivity | vm_compute; reflexivity].
Qed.

(** C1 does not hold of the code, through the defect of C3.  In
    [second_hal] the three conditions of the gate hold, the pulse
    duration is 999999 microseconds and the last boost was at
    4 s + 900 ns.  A hint at 5 s + 100 ns comes 999999200 ns later, that
    is 999999 whole microseconds, not more than the pulse duration: the
    claim asks for no write.  The handler computes 1000000, writes ["1"]
    to the boost-pulse node and moves [last_boost_time], with a 32 bit
    and with a 64 bit [long].  (With a 32 bit [long] the product
    [tv_sec * 1000000] also overflows: a hint 4295 s after the last boost
    computes 32704 and is dropped.) *)
Theorem power_hint_pulses_one_microsecond_early :
  let st := second_hal in
  let now := mk_timespec 5 100 in
  let late := mk_timespec 4299 900 in
  boost_ready 3 sample_profiles st = true /\
  pulse_duration (module_ st) = 999999 /\
  last_boost_time (module_ st) = mk_timespec 4 900 /\
  elapsed_floor_us now (last_boost_time (module_ st)) = 999999 /\
  boost_diff 32 now st = 1000000 /\
  boost_diff 64 now st = 1000000 /\
  fugu_power_hint 32 3 sample_profiles now POWER_HINT_INTERACTION None st
    = Done (pulse now st) /\
  fugu_power_hint 64 3 sample_profiles now POWER_HINT_INTERACTION None st
    = Done (pulse now st) /\
  new_writes st (pulse now st) = [(BOOST_PULSE_SYSFS, "1")] /\
  last_boost_time (module_ (pulse now st)) = now /\
  elapsed_floor_us late (last_boost_time (module_ st)) = 4295000000 /\
  boost_diff 32 late st = 32704 /\
  fugu_power_hint 32 3 sample_profiles late POWER_HINT_INTERACTION None st
    = Done st.
Proof.
  cbv zeta.
  split; [vm_compute; reflexivity |]. split; [vm_compute; reflexivity |].
  split; [vm_compute; reflexivity |]. split; [vm_compute; reflexivity |].
  split; [vm_compute; reflexivity |]. split; [vm_compute; reflexivity |].
  split; [reflexivity |]. split; [reflexivity |].
  split; [vm_compute; reflexivity |]. split; [vm_compute; reflexivity |].
  split; [vm_compute; reflexivity |]. split; [vm_compute; reflexivity |].
  reflexivity.
Qed.

(** C3 does not hold of the code.  [timespec_sub] borrows from the
    seconds when [a.tv_sec < b.tv_sec], not when [a.tv_nsec < b.tv_nsec];
    for a later [a] with the smaller nanosecond field the difference
    keeps a negative [tv_nsec], which [timespec_to_us] rounds towards
    zero.  From 4 s + 900 ns to 5 s + 100 ns, 999999200 ns elapse, that
    is 999999 whole microseconds; the code returns 1000000, with a 32 bit
    and with a 64 bit [long]. *)
Theorem elapsed_us_one_too_many :
  let a := mk_timespec 5 100 in
  let b := mk_timespec 4 900 in
  normalized a = true /\ normalized b = true /\ ns_of b <= ns_of a /\
  elapsed_floor_us a b = 999999 /\
  timespec_sub 32 a b = mk_timespec 1 (-800) /\
  timespec_to_us 32 (timespec_sub 32 a b) = 1000000 /\
  timespec_to_us 64 (timespec_sub 64 a b) = 1000000.
Proof. vm_compute. repeat split; discriminate. Qed.

(* ===================================================================== *)
(** * Part V: properties of the display shim                              *)
(* ===================================================================== *)

Import DisplayModeControl.

(** ** The platform model *)

Lemma parse_signed_throws neg digits e :
  parse_signed neg digits = Throw e -> e = NumberFormatException.
Proof.
  unfold parse_signed. destruct digits as [| c r]; [congruence |].
  destruct (parse_digits 0 (String c r)) as [v |]; [| congruence].
  destruct (in_int _); congruence.
Qed.

(** [Integer.parseInt] throws nothing but [NumberFormatException]. *)
Lemma parseInt_throws line e :
  parseInt line = Throw e -> e = NumberFormatException.
Proof.
  unfold parseInt. destruct line as [[| c r] |]; try congruence.
  destruct (Ascii.eqb c "-"); [apply parse_signed_throws |].
  destruct (Ascii.eqb c "+"); apply parse_signed_throws.
Qed.

Lemma array_get_throws {A} (a : list A) i e :
  array_get a i = Throw e -> e = ArrayIndexOutOfBoundsException.
Proof.
  unfold array_get. destruct (_ && _); [| congruence].
  destruct (a !! Z.to_nat i); congruence.
Qed.

Lemma array_get_modes i :
  array_get DISPLAY_MODES i =
  if (0 <=? i) && (i <? 4)
  then match DISPLAY_MODES !! Z.to_nat i with
       | Some m => Normal m
       | None => Throw ArrayIndexOutOfBoundsException
       end
  else Throw ArrayIndexOutOfBoundsException.
Proof. reflexivity. Qed.

Lemma jlog_writeLine p v fs :
  jlog (fst (writeLine p v fs)) = (jlog fs ++ [(p, v)])%list.
Proof.
  unfold writeLine. destruct (files fs !! p) as [f |].
  - destruct (can_write f); reflexivity.
  - destruct (bool_decide _); reflexivity.
Qed.

(** A write that worked left [value] as the text of the file. *)
Lemma writeLine_success p v fs :
  snd (writeLine p v fs) = true ->
  exists r, files (fst (writeLine p v fs)) !! p = Some (mk_file v r true).
Proof.
  unfold writeLine. destruct (files fs !! p) as [f |].
  - destruct (can_write f); cbn [fst snd files]; [| discriminate].
    intros _. exists (can_read f). apply lookup_insert_eq.
  - destruct (bool_decide _); cbn [fst snd files]; [| discriminate].
    intros _. exists true. apply lookup_insert_eq.
Qed.

(** A write leaves every other file alone. *)
Lemma writeLine_other p q v fs :
  p <> q -> files (fst (writeLine p v fs)) !! q = files fs !! q.
Proof.
  intros Hne. unfold writeLine. destruct (files fs !! p) as [f |].
  - destruct (can_write f); cbn [fst files]; [| reflexivity].
    apply lookup_insert_ne. exact Hne.
  - destruct (bool_decide _); cbn [fst files]; [| reflexivity].
    apply lookup_insert_ne. exact Hne.
Qed.

(** A write that failed changed no file. *)
Lemma writeLine_failure p v fs :
  snd (writeLine p v fs) = false -> files (fst (writeLine p v fs)) = files fs.
Proof.
  unfold writeLine. destruct (files fs !! p) as [f |].
  - destruct (can_write f); cbn [fst snd files]; [discriminate | reflexivity].
  - destruct (bool_decide _); cbn [fst snd files]; [discriminate | reflexivity].
Qed.

Lemma paths_differ : MODE_PATH <> DEFAULT_PATH.
Proof. discriminate. Qed.

(** ** The getters *)

Lemma getter_body line :
  try_catch
    (mode <-j parseInt line ;;
     m <-j array_get DISPLAY_MODES mode ;;
     Normal (Some m))
    caught_by_getter (Normal None)
  = Normal (mode_for_line line).
Proof.
  unfold mode_for_line.
  destruct (parseInt line) as [i | e] eqn:Hp; cbn [jbind try_catch].
  - rewrite array_get_modes.
    destruct ((0 <=? i) && (i <? 4)) eqn:Hr; cbn [jbind try_catch caught_by_getter].
    + destruct (DISPLAY_MODES !! Z.to_nat i); reflexivity.
    + reflexivity.
  - rewrite (parseInt_throws _ _ Hp). reflexivity.
Qed.

(** C6. [getCurrentMode] and [getDefaultMode] never throw.  Each returns
    [null] when the line read from its file is not an integer (a missing,
    unreadable or empty file included) or is an integer outside the four
    entries of the table, and the table entry at index [i] when the line
    parses to a valid index [i]. *)
Theorem getters_entry_or_null fs :
  getCurrentMode fs = Normal (mode_for_line (readOneLine MODE_PATH fs)) /\
  getDefaultMode fs = Normal (mode_for_line (readOneLine DEFAULT_PATH fs)).
Proof. split; apply getter_body. Qed.

(** The entry at a valid index carries that index as its [id]. *)
Lemma mode_for_line_valid line i :
  parseInt line = Normal i -> 0 <= i < 4 ->
  exists m, mode_for_line line = Some m /\ id m = i /\
            DISPLAY_MODES !! Z.to_nat i = Some m.
Proof.
  intros Hp Hi. unfold mode_for_line. rewrite Hp.
  destruct (Z.leb_spec 0 i); [| lia]. destruct (Z.ltb_spec i 4); [| lia].
  cbn [andb].
  assert (Hc : i = 0 \/ i = 1 \/ i = 2 \/ i = 3) by lia.
  destruct Hc as [-> | [-> | [-> | ->]]]; eexists; repeat split.
Qed.

Lemma mode_for_line_invalid line :
  (forall i, parseInt line = Normal i -> i < 0 \/ 4 <= i) ->
  mode_for_line line = None.
Proof.
  intros H. unfold mode_for_line.
  destruct (parseInt line) as [i | e]; [| reflexivity].
  destruct (H i eq_refl) as [Hi | Hi].
  - destruct (Z.leb_spec 0 i); [lia | reflexivity].
  - destruct (Z.ltb_spec i 4); [lia |]. rewrite andb_false_r. reflexivity.
Qed.

(** ** [setMode] *)

(** C7. [setMode(null, makeDefault)] returns [false] and hands back the
    file system it was given: no [writeLine] call, neither file
    touched. *)
Theorem setMode_null makeDefault fs :
  setMode None makeDefault fs = Normal (fs, false).
Proof. reflexivity. Qed.

(** The effect of [setMode] on a mode that is not [null]. *)
Lemma setMode_effect m makeDefault fs :
  let s := valueOf (id m) in
  let w1 := writeLine MODE_PATH s fs in
  let w2 := writeLine DEFAULT_PATH s (fst w1) in
  exists fs' ret,
    setMode (Some m) makeDefault fs = Normal (fs', ret) /\
    fs' = (if snd w1 && makeDefault then fst w2 else fst w1) /\
    new_lines fs fs' =
      (MODE_PATH, s) :: (if snd w1 && makeDefault then [(DEFAULT_PATH, s)] else []) /\
    ret = snd w1 && (negb makeDefault || snd w2).
Proof.
  intros s. cbv zeta. unfold setMode. cbn [get_id jbind]. fold s.
  pose proof (jlog_writeLine MODE_PATH s fs) as Hl1.
  destruct (writeLine MODE_PATH s fs) as [fs1 ok1]. cbn [fst snd] in *.
  destruct (ok1 && makeDefault) eqn:Hboth.
  - apply andb_true_iff in Hboth. destruct Hboth as [-> ->].
    cbn [jbind andb negb orb].
    exists (fst (writeLine DEFAULT_PATH s fs1)), (snd (writeLine DEFAULT_PATH s fs1)).
    repeat split.
    + destruct (writeLine DEFAULT_PATH s fs1); reflexivity.
    + unfold new_lines. rewrite jlog_writeLine, Hl1, <- app_assoc.
      apply drop_app_length.
  - exists fs1, ok1. repeat split.
    + unfold new_lines. rewrite Hl1. apply drop_app_length.
    + destruct ok1, makeDefault; try reflexivity. discriminate Hboth.
Qed.

(** C8. For a mode that is not [null], [setMode] writes the decimal
    string of [mode.id] to the mode file; when that worked and
    [makeDefault] is set it then writes the same string to the default
    file, and otherwise leaves the default file alone.  It returns
    [true] exactly when the write to the mode file worked and, with
    [makeDefault] set, the write to the default file worked too.  It does
    not throw. *)
Theorem setMode_writes m makeDefault fs :
  let s := valueOf (id m) in
  let w1 := writeLine MODE_PATH s fs in
  let w2 := writeLine DEFAULT_PATH s (fst w1) in
  exists fs' ret,
    setMode (Some m) makeDefault fs = Normal (fs', ret) /\
    fs' = (if snd w1 && makeDefault then fst w2 else fst w1) /\
    new_lines fs fs' =
      (MODE_PATH, s) :: (if snd w1 && makeDefault then [(DEFAULT_PATH, s)] else []) /\
    ret = snd w1 && (negb makeDefault || snd w2).
Proof. exact (setMode_effect m makeDefault fs). Qed.

(** ** Round trip *)

Lemma valueOf_table_ids m :
  m ∈ DISPLAY_MODES ->
  first_line (valueOf (id m)) = Some (valueOf (id m)) /\
  mode_for_line (Some (valueOf (id m))) = Some m.
Proof.
  unfold DISPLAY_MODES. rewrite !elem_of_cons, elem_of_nil.
  intros [-> | [-> | [-> | [-> | []]]]]; split; vm_compute; reflexivity.
Qed.

(** C9. On a fake file system that lets the mode file be read back:
    after a successful [setMode(m, makeDefault)] for an entry [m] of the
    table, [getCurrentMode] returns that entry. *)
Theorem setMode_getCurrentMode m makeDefault fs fs' :
  m ∈ DISPLAY_MODES ->
  setMode (Some m) makeDefault fs = Normal (fs', true) ->
  isFileReadable MODE_PATH fs' = true ->
  exists m',
    getCurrentMode fs' = Normal (Some m') /\ id m' = id m /\ m' = m.
Proof.
  intros Hm Hset Hread.
  destruct (valueOf_table_ids m Hm) as [Hline Hmode].
  destruct (setMode_effect m makeDefault fs) as (fs2 & ret & Hs & Hfs & _ & Hret).
  rewrite Hs in Hset. injection Hset as <- ->.
  set (s := valueOf (id m)) in *.
  assert (Hok1 : snd (writeLine MODE_PATH s fs) = true).
  { destruct (snd (writeLine MODE_PATH s fs)); [reflexivity | discriminate Hret]. }
  assert (Hfile : exists r, files fs2 !! MODE_PATH = Some (mk_file s r true)).
  { destruct (writeLine_success MODE_PATH s fs Hok1) as (r & Hr).
    exists r. rewrite Hfs. destruct (_ && makeDefault); [| exact Hr].
    rewrite writeLine_other by (apply not_eq_sym, paths_differ). exact Hr. }
  destruct Hfile as (r & Hfile).
  unfold isFileReadable in Hread. rewrite Hfile in Hread. cbn [can_read] in Hread.
  exists m. unfold getCurrentMode. rewrite getter_body. unfold readOneLine. rewrite Hfile. cbn [can_read text].
  rewrite Hread, Hline, Hmode. repeat split.
Qed.

Lemma setMode_getCurrentMode_witness :
  let cinema := mk_DisplayMode 2 "Cinema" in
  let fs' := fst (writeLine DEFAULT_PATH "2" (fst (writeLine MODE_PATH "2" sample_fs))) in
  cinema ∈ DISPLAY_MODES /\
  setMode (Some cinema) true sample_fs = Normal (fs', true) /\
  isFileReadable MODE_PATH fs' = true /\
  getCurrentMode fs' = Normal (Some cinema).
Proof.
  intros cinema fs'.
  assert (Hin : cinema ∈ DISPLAY_MODES)
    by (apply (list_elem_of_lookup_2 _ 2%nat); reflexivity).
  assert (Hset : setMode (Some cinema) true sample_fs = Normal (fs', true))
    by (vm_compute; reflexivity).
  assert (Hread : isFileReadable MODE_PATH fs' = true) by (vm_compute; reflexivity).
  split; [exact Hin |]. split; [exact Hset |]. split; [exact Hread |].
  destruct (setMode_getCurrentMode cinema true sample_fs fs' Hin Hset Hread)
    as (m' & Hget & _ & ->).
  exact Hget.
Defined.

(** ** Class initialisation *)

(** C10. When the class is loaded: if the default file is readable, the
    mode it names is written to the mode file and the default file is not
    written (nothing is written when it names no mode); otherwise, if the
    mode file is readable, the mode it shows is written back to the mode
    file and then, that write having worked, to the default file (again
    nothing when it shows no mode); if neither file is readable nothing
    is written.  The initialiser does not throw. *)
Theorem clinit_default_or_snapshot fs :
  clinit fs =
  Normal
    (if isFileReadable DEFAULT_PATH fs then
       match mode_for_line (readOneLine DEFAULT_PATH fs) with
       | Some d => fst (writeLine MODE_PATH (valueOf (id d)) fs)
       | None => fs
       end
     else if isFileReadable MODE_PATH fs then
       match mode_for_line (readOneLine MODE_PATH fs) with
       | Some c =>
           let w1 := writeLine MODE_PATH (valueOf (id c)) fs in
           if snd w1 then fst (writeLine DEFAULT_PATH (valueOf (id c)) (fst w1))
           else fst w1
       | None => fs
       end
     else fs)
  /\
  exists d c,
    getDefaultMode fs = Normal d /\ getCurrentMode fs = Normal c /\
    clinit fs =
    (if isFileReadable DEFAULT_PATH fs then
       r <-j setMode d false fs ;; Normal (fst r)
     else if isFileReadable MODE_PATH fs then
       r <-j setMode c true fs ;; Normal (fst r)
     else Normal fs).
Proof.
  split.
  2: { exists (mode_for_line (readOneLine DEFAULT_PATH fs)),
              (mode_for_line (readOneLine MODE_PATH fs)).
       unfold clinit, getDefaultMode, getCurrentMode. rewrite !getter_body.
       repeat split. }
  unfold clinit, getDefaultMode, getCurrentMode. rewrite !getter_body.
  cbn [jbind].
  destruct (isFileReadable DEFAULT_PATH fs).
  - destruct (mode_for_line (readOneLine DEFAULT_PATH fs)) as [d |]; [| reflexivity].
    destruct (setMode_effect d false fs) as (fs' & ret & Hs & Hfs & _).
    rewrite Hs, Hfs, andb_false_r. reflexivity.
  - destruct (isFileReadable MODE_PATH fs); [| reflexivity].
    destruct (mode_for_line (readOneLine MODE_PATH fs)) as [c |]; [| reflexivity].
    destruct (setMode_effect c true fs) as (fs' & ret & Hs & Hfs & _).
    rewrite Hs, Hfs, andb_true_r. reflexivity.
Qed.

(** With a readable default file, loading the class leaves that file as
    it was and issues no write to it. *)
Lemma clinit_keeps_default fs fs' :
  isFileReadable DEFAULT_PATH fs = true ->
  clinit fs = Normal fs' ->
  files fs' !! DEFAULT_PATH = files fs !! DEFAULT_PATH /\
  forall v, (DEFAULT_PATH, v) ∉ new_lines fs fs'.
Proof.
  intros Hr Hc. unfold clinit, getDefaultMode in Hc. rewrite getter_body, Hr in Hc.
  cbn [jbind] in Hc.
  destruct (mode_for_line (readOneLine DEFAULT_PATH fs)) as [d |].
  - destruct (setMode_effect d false fs) as (fs2 & ret & Hs & Hfs & Hl & _).
    rewrite Hs in Hc. cbn [jbind fst] in Hc. injection Hc as <-.
    rewrite andb_false_r in Hfs, Hl. split.
    + rewrite Hfs. apply writeLine_other, paths_differ.
    + intros v. rewrite Hl. rewrite elem_of_cons, elem_of_nil.
      intros [H | []]. apply (f_equal fst) in H. exact (paths_differ (eq_sym H)).
  - cbn [setMode jbind fst] in Hc. injection Hc as <-. split; [reflexivity |].
    intros v. unfold new_lines. rewrite drop_all. apply not_elem_of_nil.
Qed.

(** On the sample file system (mode node showing 2, no default file) the
    class, once loaded, has persisted 2 as the default. *)
Example clinit_sample :
  exists fs',
    clinit sample_fs = Normal fs' /\
    new_lines sample_fs fs' = [(MODE_PATH, "2"); (DEFAULT_PATH, "2")] /\
    getDefaultMode fs' = Normal (Some (mk_DisplayMode 2 "Cinema")).
Proof. eexists. repeat split; vm_compute; reflexivity. Qed.

(** ** The class on the sample file system *)

Example getAvailableModes_fixed :
  getAvailableModes = DISPLAY_MODES /\ length getAvailableModes = 4%nat /\
  map id getAvailableModes = [0; 1; 2; 3].
Proof. repeat split. Qed.

Example isSupported_sample :
  isSupported sample_fs = false /\
  (forall fs', clinit sample_fs = Normal fs' -> isSupported fs' = true).
Proof.
  split; [vm_compute; reflexivity |].
  intros fs' H. vm_compute in H. injection H as <-. vm_compute. reflexivity.
Qed.

(** Lines that are not a table index. *)
Example mode_for_line_rejects :
  mode_for_line None = None /\
  mode_for_line (Some "") = None /\
  mode_for_line (Some "Cinema") = None /\
  mode_for_line (Some " 1") = None /\
  mode_for_line (Some "4") = None /\
  mode_for_line (Some "-1") = None /\
  mode_for_line (Some "99999999999") = None /\
  mode_for_line (Some "+3") = Some (mk_DisplayMode 3 "Auto").
Proof. vm_compute. repeat split. Qed.

(* ===================================================================== *)
(** * Part VI: decimal strings                                            *)
(* ===================================================================== *)

(** What ["%d"] and [String.valueOf] print, [atoi] and [parseInt] read
    back. *)

Lemma digit_of_pretty_N_char d :
  (d < 10)%N -> digit_of (pretty_N_char d) = Some (Z.of_N d).
Proof.
  intros H.
  assert (Hc : (d = 0 \/ d = 1 \/ d = 2 \/ d = 3 \/ d = 4 \/ d = 5 \/ d = 6
                \/ d = 7 \/ d = 8 \/ d = 9)%N) by lia.
  repeat (destruct Hc as [-> | Hc]; [reflexivity |]). subst d. reflexivity.
Qed.

Lemma parse_digits_acc s : forall acc,
  parse_digits acc s =
  (fun v => acc * 10 ^ Z.of_nat (String.length s) + v) <$> parse_digits 0 s.
Proof.
  induction s as [| c r IH]; intros acc; cbn [parse_digits String.length].
  - cbn. f_equal; lia.
  - destruct (digit_of c) as [d |]; [| reflexivity].
    rewrite (IH (10 * acc + d)), (IH (10 * 0 + d)).
    destruct (parse_digits 0 r) as [v |]; [| reflexivity].
    cbn. f_equal. rewrite Nat2Z.inj_succ, Z.pow_succ_r by lia. ring.
Qed.

Lemma parse_pretty_N_go x : forall s v,
  parse_digits 0 s = Some v ->
  parse_digits 0 (pretty_N_go x s)
  = Some (Z.of_N x * 10 ^ Z.of_nat (String.length s) + v).
Proof.
  induction (N.lt_wf_0 x) as [x _ IH]. intros s v Hs.
  destruct (N.eq_dec x 0%N) as [-> | Hx].
  - rewrite pretty_N_go_0, Hs. f_equal; lia.
  - rewrite pretty_N_go_step by lia.
    assert (Hd : (x mod 10 < 10)%N) by (apply N.mod_lt; lia).
    assert (Hlt : (x / 10 < x)%N) by (apply N.div_lt; lia).
    assert (Hc : parse_digits 0 (String (pretty_N_char (x mod 10)) s)
                 = Some (Z.of_N (x mod 10) * 10 ^ Z.of_nat (String.length s) + v)).
    { cbn [parse_digits]. rewrite (digit_of_pretty_N_char _ Hd).
      rewrite parse_digits_acc, Hs. cbn. f_equal; lia. }
    rewrite (IH _ Hlt _ _ Hc). f_equal. cbn [String.length].
    rewrite Nat2Z.inj_succ, Z.pow_succ_r by lia.
    pose proof (N.div_mod x 10 ltac:(lia)) as Hdm.
    apply (f_equal Z.of_N) in Hdm.
    rewrite N2Z.inj_add, N2Z.inj_mul in Hdm. change (Z.of_N 10) with 10 in Hdm.
    set (len := 10 ^ Z.of_nat (String.length s)) in *.
    lia.
Qed.

Lemma parse_pretty_N (x : N) : parse_digits 0 (pretty x) = Some (Z.of_N x).
Proof.
  unfold pretty, pretty_N. destruct (decide (x = 0%N)) as [-> | Hx].
  - reflexivity.
  - rewrite (parse_pretty_N_go x "" 0 eq_refl). f_equal; cbn; lia.
Qed.

(** The digits of a non-negative number: never empty, all digits. *)
Lemma pretty_nonneg_digits z :
  0 <= z ->
  parse_digits 0 (pretty z) = Some z /\ pretty z <> "".
Proof.
  intros Hz.
  assert (Hp : parse_digits 0 (pretty z) = Some z).
  { destruct z as [| p | p]; [reflexivity | | lia].
    change (pretty (Z.pos p)) with (pretty (N.pos p)).
    rewrite parse_pretty_N. reflexivity. }
  split; [exact Hp |].
  intros He. rewrite He in Hp. cbn in Hp.
  destruct z as [| p | p]; [| discriminate Hp | lia].
  vm_compute in He. discriminate He.
Qed.

Lemma pretty_negative p : pretty (Z.neg p) = String "-" (pretty (Z.pos p)).
Proof. reflexivity. Qed.

Lemma digit_not_sign c d :
  digit_of c = Some d ->
  Ascii.eqb c "-" = false /\ Ascii.eqb c "+" = false /\ is_space c = false.
Proof.
  destruct c as [[] [] [] [] [] [] [] []]; vm_compute; intros H;
    try discriminate H; repeat split.
Qed.

Lemma first_digit s v :
  parse_digits 0 s = Some v -> s <> "" ->
  exists c r d, s = String c r /\ digit_of c = Some d.
Proof.
  destruct s as [| c r]; [congruence |]. intros H _.
  cbn [parse_digits] in H. destruct (digit_of c) as [d |] eqn:Hd; [| discriminate H].
  exists c, r, d. split; [reflexivity | exact Hd].
Qed.

(** [Integer.parseInt(String.valueOf(i)) == i] for every [int]. *)
Lemma parseInt_valueOf i :
  in_int i = true -> parseInt (Some (valueOf i)) = Normal i.
Proof.
  intros Hi. unfold valueOf. destruct i as [| p | p].
  - reflexivity.
  - destruct (pretty_nonneg_digits (Z.pos p) ltac:(lia)) as [Hp Hne].
    destruct (first_digit _ _ Hp Hne) as (c & r & d & Hs & Hd).
    destruct (digit_not_sign c d Hd) as (Hm & Hpl & _).
    rewrite Hs. cbn [parseInt]. rewrite Hm, Hpl, <- Hs.
    unfold parse_signed. rewrite Hp, Hi.
    destruct (pretty (Z.pos p)); [congruence | reflexivity].
  - destruct (pretty_nonneg_digits (Z.pos p) ltac:(lia)) as [Hp Hne].
    rewrite pretty_negative. cbn [parseInt].
    change (Ascii.eqb "-" "-") with true. cbn iota.
    unfold parse_signed. rewrite Hp.
    change (- Z.pos p) with (Z.neg p). rewrite Hi.
    destruct (pretty (Z.pos p)); [congruence | reflexivity].
Qed.

Lemma atoi_digits_parse s : forall acc v,
  parse_digits acc s = Some v -> atoi_digits acc s = v.
Proof.
  induction s as [| c r IH]; intros acc v; cbn [parse_digits atoi_digits].
  - congruence.
  - destruct (digit_of c); [apply IH | discriminate].
Qed.

Lemma atoi_leading_digit c r d :
  digit_of c = Some d -> atoi (String c r) = to_int32 (atoi_digits 0 (String c r)).
Proof.
  intros H.
  destruct c as [[] [] [] [] [] [] [] []];
    try (vm_compute in H; discriminate H); reflexivity.
Qed.

(** [atoi] reads back what ["%d"] printed, for a non-negative [int]. *)
Lemma atoi_pretty n : 0 <= n < 2 ^ 31 -> atoi (pretty n) = n.
Proof.
  intros Hn.
  destruct (pretty_nonneg_digits n ltac:(lia)) as [Hp Hne].
  destruct (first_digit _ _ Hp Hne) as (c & r & d & Hs & Hd).
  rewrite Hs, (atoi_leading_digit c r d Hd), <- Hs.
  rewrite (atoi_digits_parse _ _ _ Hp).
  apply wrap_signed_small; lia.
Qed.

Lemma length_pretty_N_go k : forall x s,
  (x < 10 ^ N.of_nat k)%N ->
  (String.length (pretty_N_go x s) <= k + String.length s)%nat.
Proof.
  induction k as [| k IH]; intros x s Hx.
  - assert (x = 0%N) as -> by (cbn in Hx; lia). rewrite pretty_N_go_0. lia.
  - destruct (N.eq_dec x 0%N) as [-> | Hne].
    + rewrite pretty_N_go_0. lia.
    + rewrite pretty_N_go_step by lia.
      etransitivity; [apply IH |]; [| cbn [String.length]; lia].
      rewrite Nat2N.inj_succ, N.pow_succ_r' in Hx.
      apply N.Div0.div_lt_upper_bound. exact Hx.
Qed.

Lemma length_pretty_int n :
  0 <= n < 2 ^ 31 -> (String.length (pretty n) <= 10)%nat.
Proof.
  intros Hn. destruct n as [| p | p]; [cbn; lia | | lia].
  change (pretty (Z.pos p)) with (pretty (N.pos p)).
  unfold pretty, pretty_N. destruct (decide (N.pos p = 0%N)); [cbn; lia |].
  pose proof (length_pretty_N_go 10 (N.pos p) "") as H. cbn [String.length] in H.
  rewrite Nat.add_0_r in H. apply H.
  change (10 ^ N.of_nat 10)%N with 10000000000%N. lia.
Qed.

(** ** Strings *)

Lemma length_substring_0 s : forall n,
  String.length (String.substring 0 n s) = Nat.min n (String.length s).
Proof.
  induction s as [| c r IH]; intros [| n]; cbn; try reflexivity.
  rewrite IH. reflexivity.
Qed.

Lemma substring_0_all s : forall n,
  (String.length s <= n)%nat -> String.substring 0 n s = s.
Proof.
  induction s as [| c r IH]; intros [| n] H; cbn in *; try reflexivity; try lia.
  rewrite IH by lia. reflexivity.
Qed.

Lemma append_cons c r t : String c r +:+ t = String c (r +:+ t).
Proof. reflexivity. Qed.

Lemma length_append s t :
  String.length (s +:+ t) = (String.length s + String.length t)%nat.
Proof.
  induction s as [| c r IH]; [reflexivity |].
  rewrite append_cons. cbn [String.length]. rewrite IH. reflexivity.
Qed.

Lemma last_char_append s c : last_char (s +:+ String c "") = Some c.
Proof.
  unfold last_char. induction s as [| a r IH]; [reflexivity |].
  rewrite append_cons. cbn [list_ascii_of_string].
  destruct (list_ascii_of_string (r +:+ String c "")) as [| b l] eqn:He.
  - discriminate IH.
  - exact IH.
Qed.

Lemma drop_last_append s c : drop_last (s +:+ String c "") = s.
Proof.
  unfold drop_last. rewrite length_append. cbn [String.length].
  replace (String.length s + 1 - 1)%nat with (String.length s) by lia.
  induction s as [| a r IH]; [reflexivity |].
  rewrite append_cons. cbn [String.length String.substring]. rewrite IH. reflexivity.
Qed.

Lemma length_drop_last s :
  String.length (drop_last s) = (String.length s - 1)%nat.
Proof. unfold drop_last. rewrite length_substring_0. lia. Qed.

(** The last of a run of digits is a digit. *)
Lemma last_char_digits s : forall acc v c,
  parse_digits acc s = Some v -> last_char s = Some c -> digit_of c <> None.
Proof.
  unfold last_char.
  induction s as [| a r IH]; intros acc v c Hp Hl; [discriminate Hl |].
  cbn [parse_digits] in Hp. destruct (digit_of a) as [d |] eqn:Hd; [| discriminate Hp].
  cbn [list_ascii_of_string] in Hl.
  destruct (list_ascii_of_string r) as [| b l] eqn:Hr.
  - cbn in Hl. injection Hl as <-. congruence.
  - apply (IH _ _ _ Hp). exact Hl.
Qed.

(* ===================================================================== *)
(** * Part VII: further properties of the power HAL                       *)
(* ===================================================================== *)

(** ** Reading a node *)

Lemma length_c_string s : (String.length (c_string s) <= String.length s)%nat.
Proof.
  induction s as [| c r IH]; cbn [c_string String.length]; [lia |].
  destruct (Ascii.eqb c "000"); cbn [String.length]; lia.
Qed.

Lemma c_string_idem s : c_string (c_string s) = c_string s.
Proof.
  induction s as [| c r IH]; cbn [c_string]; [reflexivity |].
  destruct (Ascii.eqb c "000") eqn:Hc; cbn [c_string]; [reflexivity |].
  rewrite Hc, IH. reflexivity.
Qed.

(** A run of digits holds no NUL. *)
Lemma c_string_digits s : forall acc v,
  parse_digits acc s = Some v -> c_string s = s.
Proof.
  induction s as [| c r IH]; intros acc v H; [reflexivity |].
  cbn [parse_digits] in H. destruct (digit_of c) as [d |] eqn:Hd; [| discriminate H].
  cbn [c_string].
  assert (Hnul : Ascii.eqb c "000" = false).
  { revert Hd. clear. destruct c as [[] [] [] [] [] [] [] []]; vm_compute;
      intros H; try discriminate H; reflexivity. }
  rewrite Hnul, (IH _ _ H). reflexivity.
Qed.

(** X1. [sysfs_read] with a buffer of [num_bytes >= 1] bytes returns
    [-1] when the path is missing or a directory.  When it returns a
    count, the count is between [0] and [num_bytes - 1], and the string
    left in the buffer holds no NUL and is at most [count] long: string
    and terminator fit the buffer. *)
Theorem sysfs_read_fits path num_bytes st :
  1 <= num_bytes ->
  ((forall c, sysfs st !! path <> Some (Attr c)) ->
   sysfs_read path num_bytes st = None) /\
  (forall count s, sysfs_read path num_bytes st = Some (count, s) ->
     0 <= count <= num_bytes - 1 /\ strlen s <= count /\ c_string s = s).
Proof.
  intros Hn. unfold sysfs_read. split.
  - intros Hno. destruct (sysfs st !! path) as [[| c] |]; try reflexivity.
    exfalso. exact (Hno c eq_refl).
  - intros count s.
    destruct (sysfs st !! path) as [[| c] |]; try discriminate.
    set (b := String.substring 0 (Z.to_nat (num_bytes - 1)) c).
    assert (Hlen : strlen b = Z.min (strlen c) (num_bytes - 1)).
    { unfold strlen, b. rewrite length_substring_0. lia. }
    assert (Hc : 0 <= strlen c) by (unfold strlen; lia).
    destruct ((1 <=? strlen b) && _); intros H; injection H as <- <-.
    + pose proof (length_c_string (drop_last b)) as Hcs.
      rewrite length_drop_last in Hcs.
      split; [lia |]. split; [unfold strlen in *; lia | apply c_string_idem].
    + pose proof (length_c_string b) as Hcs.
      split; [lia |]. split; [unfold strlen in *; lia | apply c_string_idem].
Qed.

Lemma sysfs_read_fits_witness :
  1 <= 32 /\
  sysfs_read BOOST_DURATION_SYSFS 32 fresh_hal = Some (6, "20000") /\
  0 <= 6 <= 32 - 1 /\ strlen "20000" <= 6 /\ c_string "20000" = "20000".
Proof.
  assert (H : sysfs_read BOOST_DURATION_SYSFS 32 fresh_hal = Some (6, "20000"))
    by (vm_compute; reflexivity).
  split; [lia |]. split; [exact H |].
  exact (proj2 (sysfs_read_fits BOOST_DURATION_SYSFS 32 fresh_hal ltac:(lia)) _ _ H).
Defined.

(** A decimal number, possibly followed by a newline, is read whole. *)
Lemma sysfs_read_decimal path st n tail :
  0 <= n < 2 ^ 31 ->
  tail = "" \/ tail = String "010" "" ->
  sysfs st !! path = Some (Attr (pretty n +:+ tail)) ->
  exists count, sysfs_read path 32 st = Some (count, pretty n).
Proof.
  intros Hn Htail Hnode. unfold sysfs_read. rewrite Hnode.
  pose proof (length_pretty_int n Hn) as Hlen.
  destruct (pretty_nonneg_digits n ltac:(lia)) as [Hp Hne].
  rewrite substring_0_all
    by (rewrite length_append; destruct Htail as [-> | ->]; cbn; lia).
  destruct Htail as [-> | ->].
  - assert (Hs : pretty n +:+ "" = pretty n).
    { clear. induction (pretty n) as [| c r IH]; [reflexivity |].
      rewrite append_cons, IH. reflexivity. }
    rewrite Hs.
    destruct (bool_decide (last_char (pretty n) = Some "010"%char)) eqn:Hb.
    + apply bool_decide_eq_true in Hb.
      exfalso. apply (last_char_digits _ _ _ _ Hp Hb). reflexivity.
    + rewrite andb_false_r, (c_string_digits _ _ _ Hp). eexists. reflexivity.
  - rewrite last_char_append, drop_last_append.
    rewrite bool_decide_eq_true_2 by reflexivity. rewrite andb_true_r.
    assert (Hpos : (1 <=? strlen (pretty n +:+ String "010" "")) = true).
    { apply Z.leb_le. unfold strlen. rewrite length_append. cbn. lia. }
    rewrite Hpos, (c_string_digits _ _ _ Hp). eexists. reflexivity.
Qed.

(** ** [init] *)

(** X2. When the duration node shows a decimal number [n] below [2^31],
    with or without the newline, [init] takes [n] as the pulse duration
    and the current time as the time of the last boost; it selects no
    profile, changes no node and issues no write. *)
Theorem init_reads_duration now st n tail :
  0 <= n < 2 ^ 31 ->
  tail = "" \/ tail = String "010" "" ->
  sysfs st !! BOOST_DURATION_SYSFS = Some (Attr (pretty n +:+ tail)) ->
  fugu_power_init now st =
  mk_hal (mk_module n now) (current_power_profile st) (sysfs st) (wlog st).
Proof.
  intros Hn Htail Hnode. unfold fugu_power_init, set_module.
  destruct (sysfs_read_decimal _ _ _ _ Hn Htail Hnode) as (count & ->).
  rewrite (atoi_pretty n Hn). unfold to_uint32.
  rewrite Z.mod_small by lia. reflexivity.
Qed.

Lemma init_reads_duration_witness :
  0 <= 20000 < 2 ^ 31 /\
  sysfs fresh_hal !! BOOST_DURATION_SYSFS
    = Some (Attr (pretty 20000 +:+ String "010" "")) /\
  pulse_duration (module_ (fugu_power_init (mk_timespec 100 0) fresh_hal)) = 20000.
Proof.
  assert (Hnode : sysfs fresh_hal !! BOOST_DURATION_SYSFS
                  = Some (Attr (pretty 20000 +:+ String "010" "")))
    by (vm_compute; reflexivity).
  split; [lia |]. split; [exact Hnode |].
  rewrite (init_reads_duration (mk_timespec 100 0) fresh_hal 20000
             (String "010" "") ltac:(lia) (or_intror eq_refl) Hnode).
  reflexivity.
Defined.

(** X3. When the duration node cannot be opened (missing, or a
    directory), [init] falls back to 20000 microseconds; the rest of the
    state is as in the other case. *)
Theorem init_without_node now st :
  (forall c, sysfs st !! BOOST_DURATION_SYSFS <> Some (Attr c)) ->
  fugu_power_init now st =
  mk_hal (mk_module 20000 now) (current_power_profile st) (sysfs st) (wlog st).
Proof.
  intros Hno. unfold fugu_power_init, set_module, sysfs_read.
  destruct (sysfs st !! BOOST_DURATION_SYSFS) as [[| c] |]; try reflexivity.
  exfalso. exact (Hno c eq_refl).
Qed.

Lemma init_without_node_witness :
  (forall c, (∅ : gmap string node) !! BOOST_DURATION_SYSFS <> Some (Attr c)) /\
  pulse_duration
    (module_ (fugu_power_init (mk_timespec 7 0)
                (mk_hal (mk_module 0 (mk_timespec 0 0)) (-1) ∅ []))) = 20000.
Proof.
  assert (Hno : forall c, (∅ : gmap string node) !! BOOST_DURATION_SYSFS
                          <> Some (Attr c))
    by (intros c; rewrite lookup_empty; discriminate).
  split; [exact Hno |].
  rewrite (init_without_node (mk_timespec 7 0)
             (mk_hal (mk_module 0 (mk_timespec 0 0)) (-1) ∅ []) Hno).
  reflexivity.
Defined.

(** ** Elapsed time *)

(** X4. For clock readings [b] not after [a] whose distance fits in a
    [long]: the two helpers return the whole microseconds from [b] to [a]
    when [a.tv_nsec >= b.tv_nsec], and one microsecond more when
    [a.tv_nsec < b.tv_nsec] and the nanosecond fields do not differ by a
    multiple of 1000. *)
Theorem elapsed_us_floor_or_next bits a b :
  32 <= bits <= 64 ->
  normalized a = true -> normalized b = true ->
  ns_of b <= ns_of a ->
  (tv_sec a - tv_sec b + 1) * 1000000 <= 2 ^ (bits - 1) ->
  timespec_to_us bits (timespec_sub bits a b) =
  if (tv_nsec a <? tv_nsec b) && negb ((tv_nsec b - tv_nsec a) mod 1000 =? 0)
  then elapsed_floor_us a b + 1
  else elapsed_floor_us a b.
Proof.
  intros Hb Ha Hbn Hle Hfit.
  rewrite elapsed_us_value by assumption.
  apply normalized_spec in Ha. apply normalized_spec in Hbn.
  unfold elapsed_floor_us, ns_of.
  destruct (Z.ltb_spec (tv_nsec a) (tv_nsec b)) as [Hlt | Hge]; cbn [andb].
  - destruct (Z.eqb_spec ((tv_nsec b - tv_nsec a) mod 1000) 0) as [Hm | Hm];
      cbn [negb]; quot_lia.
  - quot_lia.
Qed.

Lemma elapsed_us_floor_or_next_witness :
  32 <= 32 <= 64 /\
  normalized (mk_timespec 7 250100) = true /\
  normalized (mk_timespec 5 999000) = true /\
  ns_of (mk_timespec 5 999000) <= ns_of (mk_timespec 7 250100) /\
  timespec_to_us 32 (timespec_sub 32 (mk_timespec 7 250100) (mk_timespec 5 999000))
    = 1999252.
Proof.
  split; [lia |]. split; [reflexivity |]. split; [reflexivity |].
  split; [vm_compute; discriminate |].
  rewrite (elapsed_us_floor_or_next 32 (mk_timespec 7 250100) (mk_timespec 5 999000));
    [reflexivity | lia | reflexivity | reflexivity
     | vm_compute; discriminate | vm_compute; discriminate].
Defined.

(** A reading from an earlier second than [b]: the borrow branch gives a
    negative number of microseconds, which the conversion to [uint64_t]
    turns into one that is at least [2^63]. *)
Lemma elapsed_us_clock_behind bits a b :
  32 <= bits <= 64 ->
  normalized a = true -> normalized b = true ->
  tv_sec a < tv_sec b ->
  (tv_sec b - tv_sec a + 1) * 1000000 <= 2 ^ (bits - 1) ->
  2 ^ 63 <= timespec_to_us bits (timespec_sub bits a b).
Proof.
  intros Hb Ha Hbn Hlt Hfit.
  apply normalized_spec in Ha. apply normalized_spec in Hbn.
  pose proof (pow_long_lower bits ltac:(lia)) as Hlo.
  pose proof (pow_long_upper bits ltac:(lia)) as Hhi.
  unfold timespec_sub, timespec_to_us, wrap_long.
  destruct (Z.leb_spec (tv_sec b) (tv_sec a)) as [Hc | _]; [lia |].
  cbn [tv_sec tv_nsec].
  rewrite (wrap_signed_small bits (tv_sec a - tv_sec b)) by lia.
  rewrite (wrap_signed_small bits (tv_sec a - tv_sec b - 1)) by lia.
  rewrite (wrap_signed_small bits (1000000000 - tv_nsec b)) by lia.
  rewrite (wrap_signed_small bits (1000000000 - tv_nsec b + tv_nsec a)) by lia.
  rewrite (wrap_signed_small bits ((tv_sec a - tv_sec b - 1) * 1000000)) by lia.
  set (q := Z.quot (1000000000 - tv_nsec b + tv_nsec a) 1000).
  assert (Hq : 0 <= q <= 1999999) by (subst q; quot_lia).
  rewrite wrap_signed_small by lia.
  unfold to_uint64.
  rewrite <- (Z_mod_plus_full _ 1 (2 ^ 64)).
  rewrite Z.mod_small by lia. lia.
Qed.

(** ** Writes and nodes *)

Lemma sysfs_after_write p s st p' :
  sysfs (fst (sysfs_write p s st)) !! p' =
  if decide (p = p') then stored s (sysfs st !! p) else sysfs st !! p'.
Proof.
  unfold sysfs_write.
  destruct (sysfs st !! p) as [[| c] |] eqn:Hp; cbn [fst sysfs log_write stored];
    destruct (decide (p = p')) as [<- | Hne]; try assumption; try reflexivity.
  - apply lookup_insert_eq.
  - apply lookup_insert_ne. exact Hne.
Qed.

Lemma shape_stored s n : shape (stored s n) = shape n.
Proof. destruct n as [[| c] |]; reflexivity. Qed.

Lemma shape_sysfs_write p s st path :
  shape (sysfs (fst (sysfs_write p s st)) !! path) = shape (sysfs st !! path).
Proof.
  rewrite sysfs_after_write. destruct (decide (p = path)) as [<- | Hne];
    [apply shape_stored | reflexivity].
Qed.

Lemma apply_writes_cons w ws st :
  apply_writes (w :: ws) st = apply_writes ws (fst (sysfs_write w.1 w.2 st)).
Proof. reflexivity. Qed.

Lemma apply_writes_pair p v ws st :
  apply_writes ((p, v) :: ws) st = apply_writes ws (fst (sysfs_write p v st)).
Proof. reflexivity. Qed.

Lemma apply_writes_nil st : apply_writes [] st = st.
Proof. reflexivity. Qed.

Lemma write_profile_apply q st : write_profile q st = apply_writes (profile_writes q) st.
Proof.
  unfold profile_writes. rewrite !apply_writes_pair, apply_writes_nil.
  unfold write_profile, sysfs_write_int. reflexivity.
Qed.

Lemma shape_apply_writes ws : forall st path,
  shape (sysfs (apply_writes ws st) !! path) = shape (sysfs st !! path).
Proof.
  induction ws as [| w r IH]; intros st path; [reflexivity |].
  rewrite apply_writes_cons, IH. apply shape_sysfs_write.
Qed.

Lemma module_apply_writes ws : forall st, module_ (apply_writes ws st) = module_ st.
Proof.
  induction ws as [| w r IH]; intros st; [reflexivity |].
  rewrite apply_writes_cons, IH. unfold sysfs_write.
  destruct (sysfs st !! w.1) as [[| c] |]; reflexivity.
Qed.

Lemma sysfs_apply_writes_other ws : forall st path,
  path ∉ ws.*1 -> sysfs (apply_writes ws st) !! path = sysfs st !! path.
Proof.
  induction ws as [| w r IH]; intros st path Hnot; [reflexivity |].
  rewrite fmap_cons, not_elem_of_cons in Hnot. destruct Hnot as [Hne Hr].
  rewrite apply_writes_cons, (IH _ _ Hr), sysfs_after_write.
  rewrite decide_False by congruence. reflexivity.
Qed.

Lemma profile_paths_distinct q : NoDup (profile_writes q).*1.
Proof. apply (bool_decide_unpack _). vm_compute. exact I. Qed.

Lemma governor_not_profile_path q : INTERACTIVE_PATH ∉ (profile_writes q).*1.
Proof. apply (bool_decide_unpack _). vm_compute. exact I. Qed.

Lemma pulse_not_profile_path q : BOOST_PULSE_SYSFS ∉ (profile_writes q).*1.
Proof. apply (bool_decide_unpack _). vm_compute. exact I. Qed.

Lemma check_governor_shape st st' :
  shape (sysfs st' !! INTERACTIVE_PATH) = shape (sysfs st !! INTERACTIVE_PATH) ->
  check_governor st' = check_governor st.
Proof.
  unfold check_governor.
  destruct (sysfs st' !! INTERACTIVE_PATH) as [[| c'] |],
           (sysfs st !! INTERACTIVE_PATH) as [[| c] |]; cbn; congruence.
Qed.

Lemma clocked_between_le lo hi ts :
  clocked_between lo hi ts = true -> ns_of lo <= ns_of hi.
Proof.
  revert lo. induction ts as [| u r IH]; intros lo H; cbn [clocked_between] in H.
  - apply Z.leb_le. exact H.
  - apply andb_true_iff in H. destruct H as [H Hr].
    apply andb_true_iff in H. destruct H as [_ Hlo]. apply Z.leb_le in Hlo.
    specialize (IH u Hr). lia.
Qed.

Lemma clocked_between_weaken lo lo' hi ts :
  ns_of lo' <= ns_of lo ->
  clocked_between lo hi ts = true -> clocked_between lo' hi ts = true.
Proof.
  intros Hle. destruct ts as [| u r]; cbn [clocked_between].
  - rewrite !Z.leb_le. lia.
  - rewrite !andb_true_iff, !Z.leb_le. intros [[Hn Hlo] Hr].
    repeat split; try assumption. lia.
Qed.

Lemma replicate_snoc {A} (x : A) k : (x :: replicate k x = replicate k x ++ [x])%list.
Proof. induction k as [| k IH]; [reflexivity |]. cbn. rewrite <- IH. reflexivity. Qed.

Section PowerFurther.

Variable long_bits : Z.
Variable PROFILE_MAX : Z.
Variable profiles : list power_profile.

Local Abbreviation power_hint := (fugu_power_hint long_bits PROFILE_MAX profiles).
Local Abbreviation valid := (is_profile_valid PROFILE_MAX).
Local Abbreviation ready := (boost_ready PROFILE_MAX profiles).
Local Abbreviation diff := (boost_diff long_bits).
Local Abbreviation the_pulse := (BOOST_PULSE_SYSFS, "1").

Hypothesis table : table_declared PROFILE_MAX profiles.

(** ** The gate *)

(** X5. With a valid profile of non-zero [boostpulse_duration] selected
    and the governor present, a boost hint clocked in an earlier second
    than the recorded last boost pulses, for every pulse duration a
    [uint32_t] can hold, and moves [last_boost_time] back to that
    reading; this as long as the distance between the two readings,
    plus a second, fits in a [long] as microseconds. *)
Theorem boost_hint_pulses_when_clock_behind now hint data st :
  32 <= long_bits <= 64 ->
  is_boost_hint hint = true ->
  ready st = true ->
  pulse_duration (module_ st) < 2 ^ 32 ->
  normalized now = true ->
  normalized (last_boost_time (module_ st)) = true ->
  tv_sec now < tv_sec (last_boost_time (module_ st)) ->
  (tv_sec (last_boost_time (module_ st)) - tv_sec now + 1) * 1000000
    <= 2 ^ (long_bits - 1) ->
  power_hint now hint data st = Done (pulse now st) /\
  last_boost_time (module_ (pulse now st)) = now.
Proof using table.
  intros Hb Hh Hr Hpd Hn Hl Hlt Hfit.
  rewrite (power_hint_boost_step long_bits PROFILE_MAX profiles table now hint data st Hh).
  pose proof (elapsed_us_clock_behind long_bits now _ Hb Hn Hl Hlt Hfit) as Hd.
  fold (boost_diff long_bits now st) in Hd.
  rewrite Hr. cbn [andb].
  destruct (Z.ltb_spec (pulse_duration (module_ st)) (diff now st)) as [_ | Hle]; [| lia].
  split; [reflexivity |].
  destruct (pulse_fields now st) as (_ & Hlast & _). exact Hlast.
Qed.


Lemma sysfs_pulse_other now st path :
  path <> BOOST_PULSE_SYSFS -> sysfs (pulse now st) !! path = sysfs st !! path.
Proof.
  intros Hne. unfold pulse, set_module. cbn [sysfs].
  rewrite sysfs_after_write. rewrite decide_False by congruence. reflexivity.
Qed.

Lemma run_hints_log hint data ts : forall st,
  is_boost_hint hint = true ->
  exists st' k,
    run_hints long_bits PROFILE_MAX profiles hint data ts st = Done st' /\
    (k <= length ts)%nat /\
    wlog st' = (wlog st ++ replicate k the_pulse)%list /\
    current_power_profile st' = current_power_profile st /\
    pulse_duration (module_ st') = pulse_duration (module_ st) /\
    forall path, path <> BOOST_PULSE_SYSFS -> sysfs st' !! path = sysfs st !! path.
Proof using table.
  induction ts as [| t r IH]; intros st Hh.
  - exists st, 0%nat. cbn [replicate]. rewrite app_nil_r. repeat split; reflexivity || lia.
  - cbn [run_hints].
    rewrite (power_hint_boost_step long_bits PROFILE_MAX profiles table t hint data st Hh).
    destruct (ready st && _); cbn [obind].
    + destruct (IH (pulse t st) Hh) as (st' & k & Hrun & Hk & Hlog & Hc & Hp & Hs).
      destruct (pulse_fields t st) as (Hw & _ & Hpd & Hcur & _).
      exists st', (S k). split; [exact Hrun |]. split; [cbn [length]; lia |].
      split; [| split; [congruence | split; [congruence |]]].
      * rewrite Hlog, Hw, <- app_assoc. reflexivity.
      * intros path Hne. rewrite (Hs path Hne). apply sysfs_pulse_other. exact Hne.
    + destruct (IH st Hh) as (st' & k & Hrun & Hk & Hrest).
      exists st', k. split; [exact Hrun |]. split; [cbn [length]; lia | exact Hrest].
Qed.

(** X6. Boost hints never fault, whatever their clock readings; all they
    ever write is ["1"] to the boost-pulse node, at most once per call;
    they leave the selected profile, the pulse duration and every other
    node alone. *)
Theorem boost_hints_only_pulse hint data ts st :
  is_boost_hint hint = true ->
  exists st' k,
    run_hints long_bits PROFILE_MAX profiles hint data ts st = Done st' /\
    (k <= length ts)%nat /\
    new_writes st st' = replicate k the_pulse /\
    current_power_profile st' = current_power_profile st /\
    pulse_duration (module_ st') = pulse_duration (module_ st) /\
    forall path, path <> BOOST_PULSE_SYSFS -> sysfs st' !! path = sysfs st !! path.
Proof using table.
  intros Hh.
  destruct (run_hints_log hint data ts st Hh) as (st' & k & Hrun & Hk & Hlog & Hrest).
  exists st', k. split; [exact Hrun |]. split; [exact Hk |]. split; [| exact Hrest].
  unfold new_writes. rewrite Hlog. apply drop_app_length.
Qed.

Lemma run_hints_rate hint data hi ts : forall st,
  32 <= long_bits <= 64 ->
  is_boost_hint hint = true ->
  0 <= pulse_duration (module_ st) ->
  normalized hi = true ->
  normalized (last_boost_time (module_ st)) = true ->
  clocked_between (last_boost_time (module_ st)) hi ts = true ->
  (tv_sec hi - tv_sec (last_boost_time (module_ st)) + 1) * 1000000
    <= 2 ^ (long_bits - 1) ->
  exists st' k,
    run_hints long_bits PROFILE_MAX profiles hint data ts st = Done st' /\
    wlog st' = (wlog st ++ replicate k the_pulse)%list /\
    Z.of_nat k * (1000 * pulse_duration (module_ st))
      <= ns_of hi - ns_of (last_boost_time (module_ st)).
Proof using table.
  induction ts as [| t r IH]; intros st Hb Hh Hpd Hhi Hl Hcb Hfit.
  - exists st, 0%nat. cbn [replicate]. rewrite app_nil_r.
    apply clocked_between_le in Hcb. repeat split; reflexivity || lia.
  - cbn [clocked_between] in Hcb.
    apply andb_true_iff in Hcb. destruct Hcb as [Hcb Hr].
    apply andb_true_iff in Hcb. destruct Hcb as [Hn Hlo]. apply Z.leb_le in Hlo.
    pose proof (clocked_between_le _ _ _ Hr) as Hthi.
    pose proof Hn as Hn'. pose proof Hl as Hl'. pose proof Hhi as Hhi'.
    apply normalized_spec in Hn'. apply normalized_spec in Hl'.
    apply normalized_spec in Hhi'. unfold ns_of in Hlo, Hthi.
    cbn [run_hints].
    rewrite (power_hint_boost_step long_bits PROFILE_MAX profiles table t hint data st Hh).
    destruct (ready st && (pulse_duration (module_ st) <? diff t st)) eqn:Hfire;
      cbn [obind].
    + apply andb_true_iff in Hfire. destruct Hfire as [_ Hdue].
      apply Z.ltb_lt in Hdue. unfold boost_diff in Hdue.
      rewrite elapsed_us_value in Hdue
        by (try assumption; unfold ns_of; lia).
      assert (Hgap : 1000 * pulse_duration (module_ st)
                     <= ns_of t - ns_of (last_boost_time (module_ st))).
      { unfold ns_of. revert Hdue. quot_lia. }
      destruct (pulse_fields t st) as (Hw & Hlast & Hsame & _ & _).
      destruct (IH (pulse t st)) as (st' & k & Hrun & Hlog & Hbound);
        rewrite ?Hsame, ?Hlast; try assumption; [lia |].
      exists st', (S k). split; [exact Hrun |]. split.
      * rewrite Hlog, Hw, <- app_assoc. reflexivity.
      * rewrite Hsame, Hlast in Hbound. rewrite Nat2Z.inj_succ.
        unfold ns_of in *. nia.
    + destruct (IH st) as (st' & k & Hrun & Hlog & Hbound); try assumption.
      { apply (clocked_between_weaken t); [unfold ns_of; lia | exact Hr]. }
      exists st', k. repeat split; assumption.
Qed.

(** X7. The gate limits the rate: when boost hints are clocked
    monotonically between the recorded last boost and a time [hi], and
    that span fits in a [long], [k] pulses take at least [k] times the
    pulse duration:
    [k * 1000 * pulse_duration <= ns(hi) - ns(last_boost_time)]. *)
Theorem boost_hints_rate_limited hint data hi ts st :
  32 <= long_bits <= 64 ->
  is_boost_hint hint = true ->
  0 <= pulse_duration (module_ st) ->
  normalized hi = true ->
  normalized (last_boost_time (module_ st)) = true ->
  clocked_between (last_boost_time (module_ st)) hi ts = true ->
  (tv_sec hi - tv_sec (last_boost_time (module_ st)) + 1) * 1000000
    <= 2 ^ (long_bits - 1) ->
  exists st' k,
    run_hints long_bits PROFILE_MAX profiles hint data ts st = Done st' /\
    new_writes st st' = replicate k the_pulse /\
    Z.of_nat k * (1000 * pulse_duration (module_ st))
      <= ns_of hi - ns_of (last_boost_time (module_ st)).
Proof using table.
  intros Hb Hh Hpd Hhi Hl Hcb Hfit.
  destruct (run_hints_rate hint data hi ts st Hb Hh Hpd Hhi Hl Hcb Hfit)
    as (st' & k & Hrun & Hlog & Hbound).
  exists st', k. split; [exact Hrun |]. split; [| exact Hbound].
  unfold new_writes. rewrite Hlog. apply drop_app_length.
Qed.

End PowerFurther.

(** ** Profiles and nodes *)

Lemma current_set_current p st : current_power_profile (set_current p st) = p.
Proof. reflexivity. Qed.

Lemma sysfs_set_current p st : sysfs (set_current p st) = sysfs st.
Proof. reflexivity. Qed.

Lemma module_set_current p st : module_ (set_current p st) = module_ st.
Proof. reflexivity. Qed.


Lemma profile_entries_pulse log :
  profile_entries (log ++ [(BOOST_PULSE_SYSFS, "1")]) = profile_entries log.
Proof.
  unfold profile_entries. rewrite filter_app.
  rewrite (filter_cons_False _ (BOOST_PULSE_SYSFS, "1")) by (intros H; apply H; reflexivity).
  rewrite filter_nil. apply app_nil_r.
Qed.

Lemma profile_entries_profile log q :
  profile_entries (log ++ profile_writes q)
  = (profile_entries log ++ profile_writes q)%list.
Proof.
  unfold profile_entries. rewrite filter_app. f_equal.
Qed.

Section PowerProfiles.

Variable long_bits : Z.
Variable PROFILE_MAX : Z.
Variable profiles : list power_profile.

Local Abbreviation valid := (is_profile_valid PROFILE_MAX).
Local Abbreviation ready := (boost_ready PROFILE_MAX profiles).

Hypothesis table : table_declared PROFILE_MAX profiles.

(** X8. A SET_PROFILE that gets past the guards issues exactly the
    eight writes of the profile, in the order of the source and to eight
    different paths, and selects the profile; every node outside these
    eight paths is left as it is, and so are the module's pulse duration
    and time stamp. *)
Theorem set_power_profile_touches_eight p st :
  valid p = true ->
  p <> current_power_profile st ->
  check_governor st = true ->
  exists q st1,
    profiles !! Z.to_nat p = Some q /\
    set_power_profile PROFILE_MAX profiles p st = Done st1 /\
    new_writes st st1 = profile_writes q /\
    NoDup (profile_writes q).*1 /\
    (forall path, path ∉ (profile_writes q).*1 ->
       sysfs st1 !! path = sysfs st !! path) /\
    module_ st1 = module_ st /\
    current_power_profile st1 = p.
Proof using table.
  intros Hv Hne Hg.
  destruct (profiles_at_valid PROFILE_MAX profiles table _ Hv) as (q & Hl & Hq).
  exists q, (set_current p (write_profile q st)).
  split; [exact Hl |]. split.
  { unfold set_power_profile. rewrite Hv, Hg. cbn [negb].
    destruct (Z.eqb_spec p (current_power_profile st)); [contradiction |].
    rewrite Hq. reflexivity. }
  split.
  { unfold new_writes.
    rewrite wlog_set_current, wlog_write_profile. apply drop_app_length. }
  split; [apply profile_paths_distinct |].
  rewrite sysfs_set_current, module_set_current, current_set_current,
    write_profile_apply.
  split; [| split; [apply module_apply_writes | reflexivity]].
  intros path Hnot. apply sysfs_apply_writes_other. exact Hnot.
Qed.



(** One call keeps the log in step with the selected profile. *)
Lemma dispatch_log_tracks c st st' :
  log_tracks_profile profiles st ->
  dispatch long_bits PROFILE_MAX profiles c st = Done st' ->
  log_tracks_profile profiles st'.
Proof using table.
  intros Hinv.
  destruct c as [now | on | now hint data | f]; cbn [dispatch];
    try (intros H; apply Done_inj in H; subst st'; exact Hinv).
  destruct (is_boost_hint hint) eqn:Hh.
  - rewrite (power_hint_boost_step long_bits PROFILE_MAX profiles table now hint data st Hh).
    intros H. apply Done_inj in H. subst st'.
    destruct (ready st && _); [| exact Hinv].
    destruct (pulse_fields now st) as (Hw & _ & _ & Hc & _).
    unfold log_tracks_profile. rewrite Hw, Hc, profile_entries_pulse. exact Hinv.
  - destruct hint; try discriminate Hh; cbn [fugu_power_hint];
      try (intros H; apply Done_inj in H; subst st'; exact Hinv).
    destruct data as [v |]; [| discriminate].
    destruct (set_power_profile_cases PROFILE_MAX profiles table v st)
      as [Hs | (q & Hv & Hl & _ & _ & Hq)].
    + rewrite Hs. intros H. apply Done_inj in H. subst st'. exact Hinv.
    + rewrite Hq. intros H. apply Done_inj in H. subst st'.
      right. exists q, (profile_entries (wlog st)).
      rewrite current_set_current, wlog_set_current, wlog_write_profile.
      split; [| split; [exact Hl |]].
      * unfold is_profile_valid in Hv. apply andb_true_iff in Hv.
        destruct Hv as [H0 _]. apply Z.leb_le in H0. exact H0.
      * apply (profile_entries_profile (wlog st) q).
Qed.

(** X10. Over any sequence of calls to the entry points, the profile the
    HAL believes selected is the one whose eight values it wrote last:
    when [current_power_profile] is not [-1], the log without the boost
    pulses ends with the eight writes of that profile. *)
Theorem run_calls_log_tracks_profile cs : forall st st',
  log_tracks_profile profiles st ->
  run_calls long_bits PROFILE_MAX profiles cs st = Done st' ->
  log_tracks_profile profiles st'.
Proof using table.
  induction cs as [| c r IH]; intros st st' Hinv; cbn [run_calls].
  - intros H. apply Done_inj in H. subst st'. exact Hinv.
  - destruct (dispatch long_bits PROFILE_MAX profiles c st) as [st1 | f] eqn:Hd;
      cbn [obind]; [| discriminate].
    apply IH. exact (dispatch_log_tracks c st st1 Hinv Hd).
Qed.

Lemma dispatch_shape c st st' path :
  dispatch long_bits PROFILE_MAX profiles c st = Done st' ->
  shape (sysfs st' !! path) = shape (sysfs st !! path).
Proof using table.
  destruct c as [now | on | now hint data | f]; cbn [dispatch];
    try (intros H; apply Done_inj in H; subst st'; reflexivity).
  destruct (is_boost_hint hint) eqn:Hh.
  - rewrite (power_hint_boost_step long_bits PROFILE_MAX profiles table now hint data st Hh).
    intros H. apply Done_inj in H. subst st'.
    destruct (ready st && _); [| reflexivity].
    unfold pulse, set_module. cbn [sysfs]. apply shape_sysfs_write.
  - destruct hint; try discriminate Hh; cbn [fugu_power_hint];
      try (intros H; apply Done_inj in H; subst st'; reflexivity).
    destruct data as [v |]; [| discriminate].
    destruct (set_power_profile_cases PROFILE_MAX profiles table v st)
      as [Hs | (q & _ & _ & _ & _ & Hq)].
    + rewrite Hs. intros H. apply Done_inj in H. subst st'. reflexivity.
    + rewrite Hq. intros H. apply Done_inj in H. subst st'.
      rewrite sysfs_set_current, write_profile_apply. apply shape_apply_writes.
Qed.

(** X11. No sequence of calls creates or removes a node or turns a
    directory into a file or back: every path leads to the same kind of
    node before and after.  In particular the HAL itself never changes
    what [check_governor] answers. *)
Theorem run_calls_keep_nodes cs : forall st st',
  run_calls long_bits PROFILE_MAX profiles cs st = Done st' ->
  (forall path, shape (sysfs st' !! path) = shape (sysfs st !! path)) /\
  check_governor st' = check_governor st.
Proof using table.
  assert (Hshape : forall cs st st',
    run_calls long_bits PROFILE_MAX profiles cs st = Done st' ->
    forall path, shape (sysfs st' !! path) = shape (sysfs st !! path)).
  { clear cs. induction cs as [| c r IH]; intros st st'; cbn [run_calls].
    - intros H. apply Done_inj in H. subst st'. reflexivity.
    - destruct (dispatch long_bits PROFILE_MAX profiles c st) as [st1 | f] eqn:Hd;
        cbn [obind]; [| discriminate].
      intros Hrun path. rewrite (IH _ _ Hrun path).
      exact (dispatch_shape c st st1 path Hd). }
  intros st st' Hrun. split; [exact (Hshape cs st st' Hrun) |].
  apply check_governor_shape. exact (Hshape cs st st' Hrun INTERACTIVE_PATH).
Qed.

End PowerProfiles.

(** ** Instances on the sample data *)

Lemma boost_hint_pulses_when_clock_behind_witness :
  table_declared 3 sample_profiles /\
  boost_ready 3 sample_profiles booted_hal = true /\
  tv_sec (mk_timespec 99 500) < tv_sec (last_boost_time (module_ booted_hal)) /\
  fugu_power_hint 32 3 sample_profiles (mk_timespec 99 500)
    POWER_HINT_INTERACTION None booted_hal
  = Done (pulse (mk_timespec 99 500) booted_hal).
Proof.
  split; [reflexivity |]. split; [vm_compute; reflexivity |].
  split; [vm_compute; reflexivity |].
  apply (boost_hint_pulses_when_clock_behind 32 3 sample_profiles eq_refl
           (mk_timespec 99 500) POWER_HINT_INTERACTION None booted_hal);
    [lia | reflexivity | vm_compute; reflexivity | vm_compute; reflexivity
     | reflexivity | vm_compute; reflexivity | vm_compute; reflexivity
     | vm_compute; discriminate].
Defined.

Lemma boost_hints_only_pulse_witness :
  table_declared 3 sample_profiles /\
  is_boost_hint POWER_HINT_LAUNCH_BOOST = true /\
  exists st' k,
    run_hints 32 3 sample_profiles POWER_HINT_LAUNCH_BOOST None
      [mk_timespec 100 30000000; mk_timespec 100 35000000; mk_timespec 101 0]
      booted_hal = Done st' /\
    (k <= 3)%nat /\
    new_writes booted_hal st' = replicate k (BOOST_PULSE_SYSFS, "1") /\
    current_power_profile st' = current_power_profile booted_hal.
Proof.
  split; [reflexivity |]. split; [reflexivity |].
  destruct (boost_hints_only_pulse 32 3 sample_profiles eq_refl
              POWER_HINT_LAUNCH_BOOST None
              [mk_timespec 100 30000000; mk_timespec 100 35000000; mk_timespec 101 0]
              booted_hal eq_refl) as (st' & k & H1 & H2 & H3 & H4 & _).
  exists st', k. repeat split; assumption.
Defined.

Lemma boost_hints_rate_limited_witness :
  table_declared 3 sample_profiles /\
  32 <= 32 <= 64 /\
  clocked_between (last_boost_time (module_ booted_hal)) (mk_timespec 100 90000000)
    [mk_timespec 100 30000000; mk_timespec 100 60000000; mk_timespec 100 90000000]
    = true /\
  exists st' k,
    run_hints 32 3 sample_profiles POWER_HINT_INTERACTION None
      [mk_timespec 100 30000000; mk_timespec 100 60000000; mk_timespec 100 90000000]
      booted_hal = Done st' /\
    new_writes booted_hal st' = replicate k (BOOST_PULSE_SYSFS, "1") /\
    Z.of_nat k * (1000 * pulse_duration (module_ booted_hal))
      <= ns_of (mk_timespec 100 90000000)
         - ns_of (last_boost_time (module_ booted_hal)).
Proof.
  split; [reflexivity |]. split; [lia |]. split; [vm_compute; reflexivity |].
  apply (boost_hints_rate_limited 32 3 sample_profiles eq_refl
           POWER_HINT_INTERACTION None (mk_timespec 100 90000000));
    [lia | reflexivity | vm_compute; discriminate | reflexivity
     | vm_compute; reflexivity | vm_compute; reflexivity
     | vm_compute; discriminate].
Defined.

Lemma set_power_profile_touches_eight_witness :
  table_declared 3 sample_profiles /\
  is_profile_valid 3 1 = true /\
  1 <> current_power_profile fresh_hal /\
  check_governor fresh_hal = true /\
  exists q st1,
    sample_profiles !! Z.to_nat 1 = Some q /\
    set_power_profile 3 sample_profiles 1 fresh_hal = Done st1 /\
    new_writes fresh_hal st1 = profile_writes q /\
    sysfs st1 !! BOOST_PULSE_SYSFS = sysfs fresh_hal !! BOOST_PULSE_SYSFS.
Proof.
  assert (Hne : 1 <> current_power_profile fresh_hal) by (vm_compute; discriminate).
  assert (Hg : check_governor fresh_hal = true) by (vm_compute; reflexivity).
  split; [reflexivity |]. split; [reflexivity |]. split; [exact Hne |].
  split; [exact Hg |].
  destruct (set_power_profile_touches_eight 3 sample_profiles eq_refl 1 fresh_hal
              eq_refl Hne Hg) as (q & st1 & H1 & H2 & H3 & _ & H5 & _).
  exists q, st1. split; [exact H1 |]. split; [exact H2 |]. split; [exact H3 |].
  apply H5. apply pulse_not_profile_path.
Defined.


Lemma run_calls_log_tracks_profile_witness :
  table_declared 3 sample_profiles /\
  log_tracks_profile sample_profiles fresh_hal /\
  run_calls 32 3 sample_profiles
    [ CallInit (mk_timespec 100 0);
      CallPowerHint (mk_timespec 100 500000) POWER_HINT_SET_PROFILE (Some 1) ]
    fresh_hal = Done booted_hal /\
  log_tracks_profile sample_profiles booted_hal.
Proof.
  assert (Hinv : log_tracks_profile sample_profiles fresh_hal) by (left; reflexivity).
  assert (Hrun : run_calls 32 3 sample_profiles
            [ CallInit (mk_timespec 100 0);
              CallPowerHint (mk_timespec 100 500000) POWER_HINT_SET_PROFILE (Some 1) ]
            fresh_hal = Done booted_hal) by reflexivity.
  split; [reflexivity |]. split; [exact Hinv |]. split; [exact Hrun |].
  exact (run_calls_log_tracks_profile 32 3 sample_profiles eq_refl _ _ _ Hinv Hrun).
Defined.

Lemma run_calls_keep_nodes_witness :
  table_declared 3 sample_profiles /\
  run_calls 32 3 sample_profiles
    [ CallInit (mk_timespec 100 0);
      CallPowerHint (mk_timespec 100 500000) POWER_HINT_SET_PROFILE (Some 1) ]
    fresh_hal = Done booted_hal /\
  check_governor booted_hal = check_governor fresh_hal.
Proof.
  assert (Hrun : run_calls 32 3 sample_profiles
            [ CallInit (mk_timespec 100 0);
              CallPowerHint (mk_timespec 100 500000) POWER_HINT_SET_PROFILE (Some 1) ]
            fresh_hal = Done booted_hal) by reflexivity.
  split; [reflexivity |]. split; [exact Hrun |].
  exact (proj2 (run_calls_keep_nodes 32 3 sample_profiles eq_refl _ _ _ Hrun)).
Defined.

(* ===================================================================== *)
(** * Part VIII: further properties of the display shim                   *)
(* ===================================================================== *)

(** ** Files *)

Lemma writeLine_snd p v fs : snd (writeLine p v fs) = can_open_for_write p fs.
Proof.
  unfold writeLine, can_open_for_write. destruct (files fs !! p) as [f |].
  - destruct (can_write f); reflexivity.
  - destruct (bool_decide _); reflexivity.
Qed.

Lemma writeLine_creatable p v fs : creatable (fst (writeLine p v fs)) = creatable fs.
Proof.
  unfold writeLine. destruct (files fs !! p) as [f |].
  - destruct (can_write f); reflexivity.
  - destruct (bool_decide _); reflexivity.
Qed.

(** The file a write went to. *)
Lemma writeLine_same p v fs :
  files (fst (writeLine p v fs)) !! p =
  if can_open_for_write p fs then written v (files fs !! p) else files fs !! p.
Proof.
  unfold writeLine, can_open_for_write, written.
  destruct (files fs !! p) as [f |] eqn:Hf.
  - destruct (can_write f); cbn [fst files]; [apply lookup_insert_eq | exact Hf].
  - destruct (bool_decide _); cbn [fst files]; [apply lookup_insert_eq | exact Hf].
Qed.

Lemma can_open_other p q v fs :
  p <> q -> can_open_for_write q (fst (writeLine p v fs)) = can_open_for_write q fs.
Proof.
  intros Hne. unfold can_open_for_write.
  rewrite (writeLine_other p q v fs Hne), writeLine_creatable. reflexivity.
Qed.

(** ** Lines *)

Lemma until_newline_digits s : forall acc v,
  parse_digits acc s = Some v -> until_newline s = s.
Proof.
  induction s as [| c r IH]; intros acc v H; [reflexivity |].
  cbn [parse_digits] in H. destruct (digit_of c) as [d |] eqn:Hd; [| discriminate H].
  cbn [until_newline].
  assert (Hnl : is_newline c = false).
  { revert Hd. clear. destruct c as [[] [] [] [] [] [] [] []]; vm_compute;
      intros H; try discriminate H; reflexivity. }
  rewrite Hnl, (IH _ _ H). reflexivity.
Qed.

(** What [String.valueOf] prints is one non-empty line. *)
Lemma first_line_valueOf i : first_line (valueOf i) = Some (valueOf i).
Proof.
  unfold valueOf. destruct i as [| p | p].
  - reflexivity.
  - destruct (pretty_nonneg_digits (Z.pos p) ltac:(lia)) as [Hp Hne].
    unfold first_line. rewrite (until_newline_digits _ _ _ Hp).
    destruct (pretty (Z.pos p)); [congruence | reflexivity].
  - destruct (pretty_nonneg_digits (Z.pos p) ltac:(lia)) as [Hp Hne].
    rewrite pretty_negative. unfold first_line. cbn [until_newline].
    change (is_newline "-") with false. cbn iota.
    rewrite (until_newline_digits _ _ _ Hp). reflexivity.
Qed.

Lemma mode_for_line_entry line :
  mode_for_line line =
  match parseInt line with Normal i => entry_for i | Throw _ => None end.
Proof. reflexivity. Qed.

Lemma entry_for_table i m :
  entry_for i = Some m -> m ∈ DISPLAY_MODES /\ id m = i /\ 0 <= i < 4.
Proof.
  unfold entry_for.
  destruct (Z.leb_spec 0 i); [| discriminate].
  destruct (Z.ltb_spec i 4); [| discriminate]. cbn [andb].
  assert (Hc : i = 0 \/ i = 1 \/ i = 2 \/ i = 3) by lia.
  destruct Hc as [-> | [-> | [-> | ->]]]; intros [= <-];
    (split; [| split; [reflexivity | lia]]).
  - apply (list_elem_of_lookup_2 _ 0%nat). reflexivity.
  - apply (list_elem_of_lookup_2 _ 1%nat). reflexivity.
  - apply (list_elem_of_lookup_2 _ 2%nat). reflexivity.
  - apply (list_elem_of_lookup_2 _ 3%nat). reflexivity.
Qed.

Lemma in_int_small i : 0 <= i < 4 -> in_int i = true.
Proof. intros H. unfold in_int. apply andb_true_iff. rewrite Z.leb_le, Z.ltb_lt. lia. Qed.

(** Reading a file that holds the decimal string of an [int]. *)
Lemma getter_after_write path fs i r w :
  in_int i = true ->
  files fs !! path = Some (mk_file (valueOf i) r w) ->
  mode_for_line (readOneLine path fs) = if r then entry_for i else None.
Proof.
  intros Hi Hf. unfold readOneLine. rewrite Hf. cbn [can_read text].
  destruct r; [| reflexivity].
  rewrite first_line_valueOf, mode_for_line_entry, (parseInt_valueOf i Hi). reflexivity.
Qed.

(** ** What the getters return *)

(** X12. A mode returned by [getCurrentMode] or [getDefaultMode] is
    always one of the four entries of [getAvailableModes], namely the one
    at the index its [id] names. *)
Theorem getters_return_table_entries fs m :
  getCurrentMode fs = Normal (Some m) \/ getDefaultMode fs = Normal (Some m) ->
  m ∈ getAvailableModes /\ 0 <= id m < 4 /\ entry_for (id m) = Some m.
Proof.
  assert (H : forall line, mode_for_line line = Some m ->
                m ∈ getAvailableModes /\ 0 <= id m < 4 /\ entry_for (id m) = Some m).
  { intros line. rewrite mode_for_line_entry.
    destruct (parseInt line) as [i | e]; [| discriminate].
    intros He. destruct (entry_for_table i m He) as (Hin & Hid & Hr).
    subst i. repeat split; try assumption; lia. }
  unfold getCurrentMode, getDefaultMode. rewrite !getter_body.
  intros [Hg | Hg]; injection Hg as Hg; exact (H _ Hg).
Qed.

Lemma getters_return_table_entries_witness :
  getCurrentMode sample_fs = Normal (Some (mk_DisplayMode 2 "Cinema")) /\
  mk_DisplayMode 2 "Cinema" ∈ getAvailableModes.
Proof.
  assert (H : getCurrentMode sample_fs = Normal (Some (mk_DisplayMode 2 "Cinema")))
    by (vm_compute; reflexivity).
  split; [exact H |].
  exact (proj1 (getters_return_table_entries sample_fs _ (or_introl H))).
Defined.

(** ** [setMode] and the files *)

(** What [setMode] does to the two files, for a mode that is not
    [null]. *)
Lemma setMode_files m makeDefault fs :
  let s := valueOf (id m) in
  exists fs',
    setMode (Some m) makeDefault fs
      = Normal (fs', can_open_for_write MODE_PATH fs
                     && (negb makeDefault || can_open_for_write DEFAULT_PATH fs)) /\
    files fs' !! MODE_PATH =
      (if can_open_for_write MODE_PATH fs
       then written s (files fs !! MODE_PATH) else files fs !! MODE_PATH) /\
    files fs' !! DEFAULT_PATH =
      (if can_open_for_write MODE_PATH fs && makeDefault
          && can_open_for_write DEFAULT_PATH fs
       then written s (files fs !! DEFAULT_PATH) else files fs !! DEFAULT_PATH) /\
    creatable fs' = creatable fs.
Proof.
  intros s.
  destruct (setMode_effect m makeDefault fs) as (fs' & ret & Hs & Hfs & _ & Hret).
  fold s in Hfs, Hret. cbv zeta in Hfs, Hret.
  rewrite (writeLine_snd MODE_PATH) in Hfs, Hret.
  rewrite (writeLine_snd DEFAULT_PATH) in Hret.
  rewrite (can_open_other MODE_PATH DEFAULT_PATH s fs paths_differ) in Hret.
  exists fs'. rewrite Hs, Hret. split; [reflexivity |].
  destruct (can_open_for_write MODE_PATH fs) eqn:Hm; cbn [andb] in *.
  - destruct makeDefault; cbn [andb] in *; subst fs'.
    + split; [| split].
      * rewrite (writeLine_other DEFAULT_PATH MODE_PATH) by (apply not_eq_sym, paths_differ).
        rewrite writeLine_same, Hm. reflexivity.
      * rewrite writeLine_same.
        rewrite (can_open_other MODE_PATH DEFAULT_PATH s fs paths_differ).
        rewrite (writeLine_other MODE_PATH DEFAULT_PATH s fs paths_differ). reflexivity.
      * rewrite !writeLine_creatable. reflexivity.
    + split; [| split].
      * rewrite writeLine_same, Hm. reflexivity.
      * apply (writeLine_other MODE_PATH DEFAULT_PATH s fs paths_differ).
      * apply writeLine_creatable.
  - subst fs'. split; [| split].
    + rewrite writeLine_same, Hm. reflexivity.
    + apply (writeLine_other MODE_PATH DEFAULT_PATH s fs paths_differ).
    + apply writeLine_creatable.
Qed.

Lemma isFileReadable_written path fs' s o :
  files fs' !! path = written s o ->
  isFileReadable path fs' = match o with Some f => can_read f | None => true end.
Proof. intros H. unfold isFileReadable. rewrite H. destruct o; reflexivity. Qed.

(** X13. [setMode] does not check the mode against the table: for any
    mode that is not [null], with any name and any [int] as [id], a
    successful [setMode] followed by [getCurrentMode] on a mode file that
    can be read back gives the table entry at index [id], and [null] when
    [id] is not an index of the table. *)
Theorem setMode_then_getCurrentMode_any m makeDefault fs fs' :
  in_int (id m) = true ->
  setMode (Some m) makeDefault fs = Normal (fs', true) ->
  isFileReadable MODE_PATH fs' = true ->
  getCurrentMode fs' = Normal (entry_for (id m)).
Proof.
  intros Hi Hset Hread.
  destruct (setMode_files m makeDefault fs) as (fs2 & Hs & Hmode & _).
  rewrite Hs in Hset. injection Hset as <- Hret.
  apply andb_true_iff in Hret. destruct Hret as [Hm _]. rewrite Hm in Hmode.
  unfold getCurrentMode. rewrite getter_body.
  unfold isFileReadable in Hread. unfold written in Hmode.
  destruct (files fs !! MODE_PATH) as [f |].
  - rewrite Hmode in Hread. cbn [can_read] in Hread.
    rewrite (getter_after_write _ _ _ _ _ Hi Hmode), Hread. reflexivity.
  - rewrite (getter_after_write _ _ _ _ _ Hi Hmode). reflexivity.
Qed.

Lemma setMode_then_getCurrentMode_any_witness :
  let vivid := mk_DisplayMode 7 "Vivid" in
  let fs' := fst (writeLine MODE_PATH "7" sample_fs) in
  in_int (id vivid) = true /\
  setMode (Some vivid) false sample_fs = Normal (fs', true) /\
  isFileReadable MODE_PATH fs' = true /\
  getCurrentMode fs' = Normal None.
Proof.
  intros vivid fs'.
  assert (Hset : setMode (Some vivid) false sample_fs = Normal (fs', true))
    by reflexivity.
  assert (Hread : isFileReadable MODE_PATH fs' = true) by (vm_compute; reflexivity).
  split; [reflexivity |]. split; [exact Hset |]. split; [exact Hread |].
  exact (setMode_then_getCurrentMode_any vivid false sample_fs fs' eq_refl Hset Hread).
Defined.

(** X14. [setMode] without [makeDefault] never touches the default
    file, whether it succeeds or not, so [getDefaultMode] answers the
    same before and after. *)
Theorem setMode_keeps_default mode fs fs' ret :
  setMode mode false fs = Normal (fs', ret) ->
  files fs' !! DEFAULT_PATH = files fs !! DEFAULT_PATH /\
  getDefaultMode fs' = getDefaultMode fs.
Proof.
  intros Hset.
  assert (Hfile : files fs' !! DEFAULT_PATH = files fs !! DEFAULT_PATH).
  { destruct mode as [m |].
    - destruct (setMode_files m false fs) as (fs2 & Hs & _ & Hd & _).
      rewrite Hs in Hset. injection Hset as <- _.
      rewrite andb_false_r in Hd. exact Hd.
    - cbn [setMode] in Hset. injection Hset as <- _. reflexivity. }
  split; [exact Hfile |].
  unfold getDefaultMode, readOneLine. rewrite Hfile. reflexivity.
Qed.

Lemma setMode_keeps_default_witness :
  setMode (Some (mk_DisplayMode 0 "Dynamic")) false supported_fs
    = Normal (fst (writeLine MODE_PATH "0" supported_fs), true) /\
  getDefaultMode (fst (writeLine MODE_PATH "0" supported_fs))
    = getDefaultMode supported_fs.
Proof.
  assert (Hset : setMode (Some (mk_DisplayMode 0 "Dynamic")) false supported_fs
                 = Normal (fst (writeLine MODE_PATH "0" supported_fs), true))
    by reflexivity.
  split; [exact Hset |].
  exact (proj2 (setMode_keeps_default _ _ _ _ Hset)).
Defined.

(** X15. After a successful [setMode] with [makeDefault], the default
    file holds the same mode as the mode file: where both can be read,
    [getDefaultMode] and [getCurrentMode] give the same answer, the table
    entry at index [id]. *)
Theorem setMode_makeDefault_agrees m fs fs' :
  in_int (id m) = true ->
  setMode (Some m) true fs = Normal (fs', true) ->
  isFileReadable MODE_PATH fs' = true ->
  isFileReadable DEFAULT_PATH fs' = true ->
  getDefaultMode fs' = Normal (entry_for (id m)) /\
  getCurrentMode fs' = getDefaultMode fs'.
Proof.
  intros Hi Hset Hrm Hrd.
  destruct (setMode_files m true fs) as (fs2 & Hs & Hmode & Hdef & _).
  rewrite Hs in Hset. injection Hset as <- Hret.
  apply andb_true_iff in Hret. destruct Hret as [Hm Hd]. cbn [negb orb] in Hd.
  rewrite Hm in Hmode. rewrite Hm, Hd in Hdef. cbn [andb] in Hdef.
  assert (Hcur : mode_for_line (readOneLine MODE_PATH fs2) = entry_for (id m)).
  { unfold isFileReadable in Hrm. unfold written in Hmode.
    destruct (files fs !! MODE_PATH) as [f |].
    - rewrite Hmode in Hrm. cbn [can_read] in Hrm.
      rewrite (getter_after_write _ _ _ _ _ Hi Hmode), Hrm. reflexivity.
    - rewrite (getter_after_write _ _ _ _ _ Hi Hmode). reflexivity. }
  assert (Hdf : mode_for_line (readOneLine DEFAULT_PATH fs2) = entry_for (id m)).
  { unfold isFileReadable in Hrd. unfold written in Hdef.
    destruct (files fs !! DEFAULT_PATH) as [f |].
    - rewrite Hdef in Hrd. cbn [can_read] in Hrd.
      rewrite (getter_after_write _ _ _ _ _ Hi Hdef), Hrd. reflexivity.
    - rewrite (getter_after_write _ _ _ _ _ Hi Hdef). reflexivity. }
  unfold getDefaultMode, getCurrentMode. rewrite !getter_body, Hcur, Hdf.
  split; reflexivity.
Qed.

Lemma setMode_makeDefault_agrees_witness :
  let auto := mk_DisplayMode 3 "Auto" in
  let fs' := fst (writeLine DEFAULT_PATH "3" (fst (writeLine MODE_PATH "3" sample_fs))) in
  in_int (id auto) = true /\
  setMode (Some auto) true sample_fs = Normal (fs', true) /\
  getDefaultMode fs' = Normal (Some auto) /\
  getCurrentMode fs' = getDefaultMode fs'.
Proof.
  intros auto fs'.
  assert (Hset : setMode (Some auto) true sample_fs = Normal (fs', true))
    by reflexivity.
  split; [reflexivity |]. split; [exact Hset |].
  exact (setMode_makeDefault_agrees auto sample_fs fs' eq_refl Hset
           ltac:(vm_compute; reflexivity) ltac:(vm_compute; reflexivity)).
Defined.

(** X16. [setMode] with [makeDefault] is not all or nothing: when the
    mode file can be written and the default file cannot, it returns
    [false] although the mode file now holds the new mode; the default
    file is as before. *)
Theorem setMode_partial_failure m fs :
  can_open_for_write MODE_PATH fs = true ->
  can_open_for_write DEFAULT_PATH fs = false ->
  exists fs',
    setMode (Some m) true fs = Normal (fs', false) /\
    files fs' !! MODE_PATH = written (valueOf (id m)) (files fs !! MODE_PATH) /\
    files fs' !! DEFAULT_PATH = files fs !! DEFAULT_PATH /\
    new_lines fs fs' = [(MODE_PATH, valueOf (id m)); (DEFAULT_PATH, valueOf (id m))].
Proof.
  intros Hm Hd.
  destruct (setMode_files m true fs) as (fs' & Hs & Hmode & Hdef & _).
  destruct (setMode_effect m true fs) as (fs2 & ret & Hs2 & _ & Hlog & _).
  rewrite Hs in Hs2. injection Hs2 as <- _.
  rewrite writeLine_snd, Hm in Hlog. cbn [andb] in Hlog.
  rewrite Hm, Hd in Hs, Hdef. rewrite Hm in Hmode. cbn [andb negb orb] in *.
  exists fs'. repeat split; assumption.
Qed.

Lemma setMode_partial_failure_witness :
  can_open_for_write MODE_PATH readonly_data_fs = true /\
  can_open_for_write DEFAULT_PATH readonly_data_fs = false /\
  exists fs',
    setMode (Some (mk_DisplayMode 1 "Standard")) true readonly_data_fs
      = Normal (fs', false) /\
    files fs' !! MODE_PATH = Some (mk_file "1" true true).
Proof.
  assert (Hm : can_open_for_write MODE_PATH readonly_data_fs = true)
    by (vm_compute; reflexivity).
  assert (Hd : can_open_for_write DEFAULT_PATH readonly_data_fs = false)
    by (vm_compute; reflexivity).
  split; [exact Hm |]. split; [exact Hd |].
  destruct (setMode_partial_failure (mk_DisplayMode 1 "Standard") readonly_data_fs Hm Hd)
    as (fs' & Hs & Hf & _).
  exists fs'. split; [exact Hs |]. rewrite Hf. vm_compute. reflexivity.
Defined.

(** ** Support and class initialisation *)

Lemma isSupported_spec fs :
  isSupported fs = true <->
  isFileWritable MODE_PATH fs = true /\ isFileReadable MODE_PATH fs = true /\
  isFileWritable DEFAULT_PATH fs = true /\ isFileReadable DEFAULT_PATH fs = true.
Proof. unfold isSupported. rewrite !andb_true_iff. tauto. Qed.

Lemma writable_can_open path fs :
  isFileWritable path fs = true -> can_open_for_write path fs = true.
Proof.
  unfold isFileWritable, can_open_for_write.
  destruct (files fs !! path); [auto | discriminate].
Qed.

Lemma perms_written path fs fs' s :
  files fs' !! path = written s (files fs !! path) ->
  isFileWritable path fs' = true /\
  (isFileReadable path fs = true -> isFileReadable path fs' = true).
Proof.
  intros H. unfold isFileWritable, isFileReadable. rewrite H.
  destruct (files fs !! path) as [f |]; cbn; auto.
Qed.

Lemma perms_same path fs fs' :
  files fs' !! path = files fs !! path ->
  isFileWritable path fs' = isFileWritable path fs /\
  isFileReadable path fs' = isFileReadable path fs.
Proof. intros H. unfold isFileWritable, isFileReadable. rewrite H. auto. Qed.

(** X17. On a file system where [isSupported] holds, [setMode] succeeds
    for every mode that is not [null], with or without [makeDefault], and
    [isSupported] still holds afterwards. *)
Theorem isSupported_setMode m makeDefault fs :
  isSupported fs = true ->
  exists fs',
    setMode (Some m) makeDefault fs = Normal (fs', true) /\
    isSupported fs' = true.
Proof.
  intros Hsup. apply isSupported_spec in Hsup.
  destruct Hsup as (Hwm & Hrm & Hwd & Hrd).
  pose proof (writable_can_open _ _ Hwm) as Hom.
  pose proof (writable_can_open _ _ Hwd) as Hod.
  destruct (setMode_files m makeDefault fs) as (fs' & Hs & Hmode & Hdef & _).
  rewrite Hom, Hod in Hs, Hdef. rewrite Hom in Hmode.
  rewrite orb_true_r in Hs. cbn [andb] in Hs, Hdef.
  exists fs'. split; [exact Hs |].
  apply isSupported_spec.
  destruct (perms_written _ _ _ _ Hmode) as [Hwm' Hrm'].
  split; [exact Hwm' |]. split; [exact (Hrm' Hrm) |].
  destruct makeDefault.
  - destruct (perms_written _ _ _ _ Hdef) as [Hwd' Hrd'].
    split; [exact Hwd' | exact (Hrd' Hrd)].
  - destruct (perms_same _ _ _ Hdef) as [-> ->]. split; assumption.
Qed.

Lemma isSupported_setMode_witness :
  isSupported supported_fs = true /\
  exists fs',
    setMode (Some (mk_DisplayMode 2 "Cinema")) true supported_fs = Normal (fs', true) /\
    isSupported fs' = true.
Proof.
  assert (H : isSupported supported_fs = true) by (vm_compute; reflexivity).
  split; [exact H |].
  exact (isSupported_setMode (mk_DisplayMode 2 "Cinema") true supported_fs H).
Defined.

(** What loading the class does to the file system. *)
Lemma clinit_effect fs :
  clinit fs =
  Normal
    (if isFileReadable DEFAULT_PATH fs then
       match mode_for_line (readOneLine DEFAULT_PATH fs) with
       | Some d => fst (writeLine MODE_PATH (valueOf (id d)) fs)
       | None => fs
       end
     else if isFileReadable MODE_PATH fs then
       match mode_for_line (readOneLine MODE_PATH fs) with
       | Some c =>
           let w1 := writeLine MODE_PATH (valueOf (id c)) fs in
           if snd w1 then fst (writeLine DEFAULT_PATH (valueOf (id c)) (fst w1))
           else fst w1
       | None => fs
       end
     else fs).
Proof.
  unfold clinit, getDefaultMode, getCurrentMode. rewrite !getter_body.
  cbn [jbind].
  destruct (isFileReadable DEFAULT_PATH fs).
  - destruct (mode_for_line (readOneLine DEFAULT_PATH fs)) as [d |]; [| reflexivity].
    destruct (setMode_effect d false fs) as (fs' & ret & Hs & Hfs & _).
    rewrite Hs, Hfs, andb_false_r. reflexivity.
  - destruct (isFileReadable MODE_PATH fs); [| reflexivity].
    destruct (mode_for_line (readOneLine MODE_PATH fs)) as [c |]; [| reflexivity].
    destruct (setMode_effect c true fs) as (fs' & ret & Hs & Hfs & _).
    rewrite Hs, Hfs, andb_true_r. reflexivity.
Qed.

Lemma mode_for_line_table line m :
  mode_for_line line = Some m ->
  in_int (id m) = true /\ entry_for (id m) = Some m.
Proof.
  rewrite mode_for_line_entry. destruct (parseInt line) as [i | e]; [| discriminate].
  intros He. destruct (entry_for_table i m He) as (_ & Hid & Hr). subst i.
  split; [apply in_int_small; exact Hr | exact He].
Qed.

(** X18. When the default file is readable and names a mode of the
    table, and the mode file is readable and writable, loading the class
    makes that mode the current one: afterwards [getCurrentMode] and
    [getDefaultMode] both return it. *)
Theorem clinit_applies_persisted_default fs d :
  isFileReadable DEFAULT_PATH fs = true ->
  getDefaultMode fs = Normal (Some d) ->
  isFileReadable MODE_PATH fs = true ->
  isFileWritable MODE_PATH fs = true ->
  exists fs',
    clinit fs = Normal fs' /\
    getCurrentMode fs' = Normal (Some d) /\
    getDefaultMode fs' = Normal (Some d).
Proof.
  intros Hrd Hget Hrm Hwm.
  unfold getDefaultMode in Hget. rewrite getter_body in Hget. injection Hget as Hline.
  destruct (mode_for_line_table _ _ Hline) as [Hi He].
  rewrite clinit_effect, Hrd, Hline. eexists. split; [reflexivity |].
  set (s := valueOf (id d)).
  pose proof (writeLine_same MODE_PATH s fs) as Hmode.
  rewrite (writable_can_open _ _ Hwm) in Hmode.
  pose proof (writeLine_other MODE_PATH DEFAULT_PATH s fs paths_differ) as Hdef.
  unfold getCurrentMode, getDefaultMode. rewrite !getter_body. split.
  - unfold isFileReadable in Hrm. unfold written in Hmode.
    destruct (files fs !! MODE_PATH) as [f |]; [| discriminate Hrm].
    rewrite (getter_after_write _ _ _ _ _ Hi Hmode), Hrm, He. reflexivity.
  - unfold readOneLine in *. rewrite Hdef, Hline. reflexivity.
Qed.

Lemma clinit_applies_persisted_default_witness :
  isFileReadable DEFAULT_PATH supported_fs = true /\
  getDefaultMode supported_fs = Normal (Some (mk_DisplayMode 1 "Standard")) /\
  getCurrentMode supported_fs = Normal (Some (mk_DisplayMode 3 "Auto")) /\
  exists fs',
    clinit supported_fs = Normal fs' /\
    getCurrentMode fs' = Normal (Some (mk_DisplayMode 1 "Standard")) /\
    getDefaultMode fs' = Normal (Some (mk_DisplayMode 1 "Standard")).
Proof.
  assert (Hrd : isFileReadable DEFAULT_PATH supported_fs = true)
    by (vm_compute; reflexivity).
  assert (Hget : getDefaultMode supported_fs = Normal (Some (mk_DisplayMode 1 "Standard")))
    by (vm_compute; reflexivity).
  split; [exact Hrd |]. split; [exact Hget |]. split; [vm_compute; reflexivity |].
  exact (clinit_applies_persisted_default supported_fs _ Hrd Hget
           ltac:(vm_compute; reflexivity) ltac:(vm_compute; reflexivity)).
Defined.

(** ** Loading the class again *)

(** Writing to a file the text it already holds changes nothing. *)
Lemma writeLine_again p v r fs :
  files fs !! p = Some (mk_file v r true) ->
  snd (writeLine p v fs) = true /\
  files (fst (writeLine p v fs)) = files fs /\
  creatable (fst (writeLine p v fs)) = creatable fs.
Proof.
  intros Hf. unfold writeLine. rewrite Hf. cbn [can_write can_read fst snd files creatable].
  repeat split. apply insert_id. exact Hf.
Qed.

Lemma writeLine_refused p v fs :
  can_open_for_write p fs = false ->
  snd (writeLine p v fs) = false /\
  files (fst (writeLine p v fs)) = files fs /\
  creatable (fst (writeLine p v fs)) = creatable fs.
Proof.
  intros Hc. split; [rewrite writeLine_snd; exact Hc |].
  split; [| apply writeLine_creatable].
  apply writeLine_failure. rewrite writeLine_snd. exact Hc.
Qed.

Lemma writeLine_settled p v fs :
  settled p v fs ->
  files (fst (writeLine p v fs)) = files fs /\
  creatable (fst (writeLine p v fs)) = creatable fs.
Proof.
  intros [(r & Hf) | Hc].
  - destruct (writeLine_again p v r fs Hf) as (_ & H1 & H2). split; assumption.
  - destruct (writeLine_refused p v fs Hc) as (_ & H1 & H2). split; assumption.
Qed.

Lemma settled_after p v fs : settled p v (fst (writeLine p v fs)).
Proof.
  unfold settled. pose proof (writeLine_same p v fs) as H.
  destruct (can_open_for_write p fs) eqn:Hc.
  - left. unfold written in H. destruct (files fs !! p) as [f |]; eauto.
  - right. destruct (writeLine_refused p v fs Hc) as (_ & Hf & Hcr).
    unfold can_open_for_write in *. rewrite Hf, Hcr. exact Hc.
Qed.

Lemma settled_same_store p v fs fs' :
  files fs' = files fs -> creatable fs' = creatable fs ->
  settled p v fs -> settled p v fs'.
Proof.
  intros Hf Hc. unfold settled, can_open_for_write. rewrite Hf, Hc. tauto.
Qed.

Lemma settled_other p q v w fs :
  p <> q -> settled q w fs -> settled q w (fst (writeLine p v fs)).
Proof.
  intros Hne. unfold settled.
  rewrite (can_open_other p q v fs Hne), (writeLine_other p q v fs Hne). tauto.
Qed.

(** Second run, first branch. *)
Lemma clinit_settled_default fs c :
  isFileReadable DEFAULT_PATH fs = true ->
  mode_for_line (readOneLine DEFAULT_PATH fs) = Some c ->
  settled MODE_PATH (valueOf (id c)) fs ->
  exists fs2, clinit fs = Normal fs2 /\
              files fs2 = files fs /\ creatable fs2 = creatable fs.
Proof.
  intros Hrd Hline Hset. rewrite clinit_effect, Hrd, Hline.
  eexists. split; [reflexivity |]. apply writeLine_settled. exact Hset.
Qed.

(** Second run, second branch. *)
Lemma clinit_settled_mode fs c :
  isFileReadable DEFAULT_PATH fs = false ->
  isFileReadable MODE_PATH fs = true ->
  mode_for_line (readOneLine MODE_PATH fs) = Some c ->
  settled MODE_PATH (valueOf (id c)) fs ->
  can_open_for_write MODE_PATH fs = false \/ settled DEFAULT_PATH (valueOf (id c)) fs ->
  exists fs2, clinit fs = Normal fs2 /\
              files fs2 = files fs /\ creatable fs2 = creatable fs.
Proof.
  intros Hrd Hrm Hline Hsm Hsd. rewrite clinit_effect, Hrd, Hrm, Hline. cbv zeta.
  destruct (writeLine_settled _ _ _ Hsm) as [Hf1 Hc1].
  eexists. split; [reflexivity |].
  rewrite writeLine_snd.
  destruct (can_open_for_write MODE_PATH fs) eqn:Hom; [| split; assumption].
  destruct Hsd as [Hno | Hsd]; [discriminate Hno |].
  destruct (writeLine_settled DEFAULT_PATH (valueOf (id c))
              (fst (writeLine MODE_PATH (valueOf (id c)) fs))) as [Hf2 Hc2].
  { apply (settled_same_store _ _ fs); assumption. }
  split; congruence.
Qed.

(** X19. Loading the class a second time changes no file: run on the
    file system the first run left, the static initializer leaves every
    file with the text and permissions it has, whatever the first run
    found (it only repeats writes of what is already there, or attempts
    that fail again). *)
Theorem clinit_again_changes_nothing fs fs1 :
  clinit fs = Normal fs1 ->
  exists fs2,
    clinit fs1 = Normal fs2 /\
    files fs2 = files fs1 /\ creatable fs2 = creatable fs1.
Proof.
  rewrite clinit_effect. intros H. injection H as H.
  assert (Hnone : forall fs0, fs1 = fs0 ->
            (exists fs2, clinit fs0 = Normal fs2 /\ fs2 = fs0) ->
            exists fs2, clinit fs1 = Normal fs2 /\
                        files fs2 = files fs1 /\ creatable fs2 = creatable fs1).
  { intros fs0 -> (fs2 & Hc & ->). exists fs0. repeat split. exact Hc. }
  destruct (isFileReadable DEFAULT_PATH fs) eqn:Hrd.
  - destruct (mode_for_line (readOneLine DEFAULT_PATH fs)) as [d |] eqn:Hline.
    + subst fs1. set (s := valueOf (id d)).
      pose proof (writeLine_other MODE_PATH DEFAULT_PATH s fs paths_differ) as Hdef.
      apply (clinit_settled_default _ d).
      * unfold isFileReadable in *. rewrite Hdef. exact Hrd.
      * unfold readOneLine in *. rewrite Hdef. exact Hline.
      * apply settled_after.
    + apply (Hnone fs (eq_sym H)). exists fs. split; [| reflexivity].
      rewrite clinit_effect, Hrd, Hline. reflexivity.
  - destruct (isFileReadable MODE_PATH fs) eqn:Hrm.
    + destruct (mode_for_line (readOneLine MODE_PATH fs)) as [c |] eqn:Hline.
      * destruct (mode_for_line_table _ _ Hline) as [Hi He].
        set (s := valueOf (id c)) in *. cbv zeta in H.
        pose proof (writeLine_same MODE_PATH s fs) as Hmode.
        pose proof (writeLine_other MODE_PATH DEFAULT_PATH s fs paths_differ) as Hdef.
        rewrite writeLine_snd in H.
        destruct (can_open_for_write MODE_PATH fs) eqn:Hom.
        -- (* the mode file was written, then the default file was tried *)
           set (fa := fst (writeLine MODE_PATH s fs)) in *.
           assert (Hma : files fa !! MODE_PATH = Some (mk_file s true true)).
           { rewrite Hmode. unfold isFileReadable in Hrm. unfold written.
             destruct (files fs !! MODE_PATH) as [f |]; [| discriminate Hrm].
             rewrite Hrm. reflexivity. }
           pose proof (writeLine_other DEFAULT_PATH MODE_PATH s fa
                         (not_eq_sym paths_differ)) as Hm1.
           pose proof (writeLine_same DEFAULT_PATH s fa) as Hd1.
           rewrite H in Hm1, Hd1. rewrite Hma in Hm1.
           assert (Hsm : settled MODE_PATH s fs1) by (left; eauto).
           assert (Hsd : settled DEFAULT_PATH s fs1)
             by (rewrite <- H; apply settled_after).
           assert (Hrm1 : isFileReadable MODE_PATH fs1 = true)
             by (unfold isFileReadable; rewrite Hm1; reflexivity).
           assert (Hl1 : mode_for_line (readOneLine MODE_PATH fs1) = Some c)
             by (rewrite (getter_after_write _ _ _ _ _ Hi Hm1); exact He).
           destruct (isFileReadable DEFAULT_PATH fs1) eqn:Hrd1.
           ++ apply (clinit_settled_default _ c); [exact Hrd1 | | exact Hsm].
              (* only a default file the second write created is readable *)
              unfold isFileReadable in Hrd, Hrd1.
              destruct (can_open_for_write DEFAULT_PATH fa) eqn:Hod.
              ** unfold written in Hd1. rewrite Hdef in Hd1.
                 destruct (files fs !! DEFAULT_PATH) as [g |].
                 --- rewrite Hd1 in Hrd1. cbn [can_read] in Hrd1. congruence.
                 --- rewrite (getter_after_write _ _ _ _ _ Hi Hd1). exact He.
              ** rewrite Hd1, Hdef in Hrd1. congruence.
           ++ apply (clinit_settled_mode _ c); try assumption. right. exact Hsd.
        -- (* the mode file could not be written *)
           subst fs1.
           destruct (writeLine_refused MODE_PATH s fs Hom) as (_ & Hf & Hcr).
           apply (clinit_settled_mode _ c).
           ++ unfold isFileReadable in *. rewrite Hf. exact Hrd.
           ++ unfold isFileReadable in *. rewrite Hf. exact Hrm.
           ++ unfold readOneLine in *. rewrite Hf. exact Hline.
           ++ apply settled_after.
           ++ left. unfold can_open_for_write in *. rewrite Hf, Hcr. exact Hom.
      * apply (Hnone fs (eq_sym H)). exists fs. split; [| reflexivity].
        rewrite clinit_effect, Hrd, Hrm, Hline. reflexivity.
    + apply (Hnone fs (eq_sym H)). exists fs. split; [| reflexivity].
      rewrite clinit_effect, Hrd, Hrm. reflexivity.
Qed.

Lemma clinit_again_changes_nothing_witness :
  let fs1 := fst (writeLine DEFAULT_PATH "2" (fst (writeLine MODE_PATH "2" sample_fs))) in
  clinit sample_fs = Normal fs1 /\
  exists fs2,
    clinit fs1 = Normal fs2 /\
    files fs2 = files fs1 /\ creatable fs2 = creatable fs1.
Proof.
  intros fs1.
  assert (H : clinit sample_fs = Normal fs1) by reflexivity.
  split; [exact H |].
  exact (clinit_again_changes_nothing sample_fs fs1 H).
Defined.
